(** * ml-model-dashboard: the two demo pipelines, embedded and verified

    Sources embedded here:
    - [classification-ml-model/train_churn_model.py]  (module [Churn])
    - [classification-ml-model/test_churn_model.py]   (module [Churn])
    - [sample-ml-model/train_model.py]                (module [House])
    - [sample-ml-model/test_model.py]                 (module [House])

    Python floats are IEEE 754 binary64 values; they are modelled with the
    Standard Library's [spec_float] at precision 53 and [emax = 1024], so
    that comparisons and NaN behave as they do in the interpreter. *)

From Stdlib Require Import ZArith List Bool Lia.
From Stdlib Require Import Floats.SpecFloat.
From stdpp Require Import base option list strings gmap pretty.

Local Open Scope Z_scope.

(** ** Binary64 arithmetic *)

Module F64.

Definition prec : Z := 53.
Definition emax : Z := 1024.

Abbreviation float := spec_float.

#[global] Instance float_eq_dec : EqDecision float.
Proof. solve_decision. Defined.

Definition add : float -> float -> float := SFadd prec emax.
Definition mul : float -> float -> float := SFmul prec emax.
Definition div : float -> float -> float := SFdiv prec emax.
Definition neg : float -> float := SFopp.

(** [x < y], [x <= y], [x > y], [x >= y] of Python; all are false on NaN. *)
Definition lt (x y : float) : bool := SFltb x y.
Definition le (x y : float) : bool := SFleb x y.
Definition gt (x y : float) : bool := SFltb y x.
Definition ge (x y : float) : bool := SFleb y x.

Definition is_nan (x : float) : bool :=
  match x with S754_nan => true | _ => false end.

Definition is_finite (x : float) : bool :=
  match x with S754_zero _ | S754_finite _ _ _ => true | _ => false end.

(** Conversion of an integer (an int64 array element, a Python int or a
    boolean promoted to 0/1) to binary64, round to nearest even. *)
Definition of_Z (z : Z) : float := binary_normalize prec emax z 0 false.

Definition of_bool (b : bool) : float := of_Z (if b then 1 else 0).

(** The float literals of the sources, as the correctly rounded binary64
    values (mantissa and exponent of the hexadecimal form in the comment). *)
Definition f0_1  : float := S754_finite false 7205759403792794 (-56). (* 0x1.999999999999ap-4 *)
Definition f0_15 : float := S754_finite false 5404319552844595 (-55). (* 0x1.3333333333333p-3 *)
Definition f0_2  : float := S754_finite false 7205759403792794 (-55). (* 0x1.999999999999ap-3 *)
Definition f0_3  : float := S754_finite false 5404319552844595 (-54). (* 0x1.3333333333333p-2 *)
Definition f0_4  : float := S754_finite false 7205759403792794 (-54). (* 0x1.999999999999ap-2 *)
Definition f0_6  : float := S754_finite false 5404319552844595 (-53). (* 0x1.3333333333333p-1 *)
Definition f0_7  : float := S754_finite false 6305039478318694 (-53). (* 0x1.6666666666666p-1 *)
Definition f0_5  : float := S754_finite false 4503599627370496 (-53). (* 0x1p-1 *)

(** [np.maximum(a, b)] on one element: the first operand when it is the
    larger or a NaN, else the second. *)
Definition maximum (a b : float) : float :=
  if ge a b || is_nan a then a else b.

(** [np.clip(x, lo, hi)] on one element: a NaN passes through, else the
    value is raised to [lo] and then lowered to [hi]. *)
Definition clip_max (a b : float) : float :=
  if is_nan a then a else if gt a b then a else b.
Definition clip_min (a b : float) : float :=
  if is_nan a then a else if lt a b then a else b.
Definition clip (x lo hi : float) : float := clip_min (clip_max x lo) hi.

End F64.

(** ** The Python layer: exceptions, effects, values *)

Module Py.
Import F64.

(** The exception classes the two pipelines can meet.  The first six
    and every [OtherException] are subclasses of [Exception];
    [FileNotFoundError] and [PermissionError] are the two [OSError]s of
    the file model below.  [KeyboardInterrupt] and [SystemExit] derive
    from [BaseException] only: an interrupt from the keyboard or an exit
    request can arrive inside any call. *)
Inductive exn_class :=
  | KeyError | IndexError | ValueError | TypeError
  | FileNotFoundError | PermissionError
  | OtherException (name : string)
  | KeyboardInterrupt | SystemExit.

#[global] Instance exn_class_eq_dec : EqDecision exn_class.
Proof. solve_decision. Defined.

(** An exception instance: its class and [str(e)]. *)
Record exn := Exn { exn_cls : exn_class; exn_str : string }.

Inductive res (A : Type) :=
  | Ok (a : A)
  | Raise (e : exn).
Arguments Ok {A} a.
Arguments Raise {A} e.

(** Code that runs against a mutable state [S] (the process-wide numpy
    generator, or the disk and the console) and may raise.  The state
    survives an exception, as it does in the interpreter. *)
Definition SE (S A : Type) : Type := S -> res A * S.

Definition ret {S A} (a : A) : SE S A := fun s => (Ok a, s).
Definition raise {S A} (e : exn) : SE S A := fun s => (Raise e, s).
Definition bind {S A B} (m : SE S A) (k : A -> SE S B) : SE S B :=
  fun s => match m s with
           | (Ok a, s') => k a s'
           | (Raise e, s') => (Raise e, s')
           end.
Definition put {S} (s : S) : SE S unit := fun _ => (Ok tt, s).

(** Proof step: run the first statement of a sequence. *)
Ltac next := unfold bind at 1.

(** [try: body except <classes> as e: handler(e)] *)
Definition try_except {S A} (body : SE S A)
    (catches : exn_class -> bool) (handler : exn -> SE S A) : SE S A :=
  fun s => match body s with
           | (Ok a, s') => (Ok a, s')
           | (Raise e, s') =>
               if catches (exn_cls e) then handler e s' else (Raise e, s')
           end.

(** [except Exception]: every class but the two that derive from
    [BaseException] alone. *)
Definition Exception (c : exn_class) : bool :=
  match c with
  | KeyboardInterrupt | SystemExit => false
  | _ => true
  end.
(** [except FileNotFoundError] *)
Definition only (c0 c : exn_class) : bool := bool_decide (c = c0).

(** Pure code that may raise is the same thing with no state. *)
Definition pure_try {A} (body : res A) (catches : exn_class -> bool)
    (handler : exn -> res A) : res A :=
  match body with
  | Ok a => Ok a
  | Raise e => if catches (exn_cls e) then handler e else Raise e
  end.

Definition rbind {A B} (r : res A) (k : A -> res B) : res B :=
  match r with Ok a => k a | Raise e => Raise e end.

(** Scalar values as they occur in feature mappings and result records. *)
Inductive pyval :=
  | VNone
  | VBool (b : bool)
  | VInt (z : Z)
  | VFloat (f : float)
  | VStr (s : string).

#[global] Instance pyval_eq_dec : EqDecision pyval.
Proof. solve_decision. Defined.

(** A Python dict with string keys: insertion order is kept (it decides
    the column order of a DataFrame built from it), keys are unique. *)
Abbreviation pydict := (list (string * pyval)).

Definition keys (d : pydict) : list string := d.*1.

Fixpoint dict_get (d : pydict) (k : string) : option pyval :=
  match d with
  | [] => None
  | (k', v) :: d' => if decide (k' = k) then Some v else dict_get d' k
  end.

(** The [IndexError] of a numpy array: the index, the axis it was
    applied to and the length of that axis. *)
Definition index_error (i axis size : nat) : exn :=
  Exn IndexError ("index " +:+ pretty i +:+ " is out of bounds for axis "
                  +:+ pretty axis +:+ " with size " +:+ pretty size).

(** [a[i]] on an array, for [0 <= i]: the entry of a one-dimensional
    array, or the row of a two-dimensional one.  Either way the index
    applies to axis 0. *)
Definition getitem {A} (a : list A) (i : nat) : res A :=
  match a !! i with
  | Some x => Ok x
  | None => Raise (index_error i 0 (length a))
  end.

(** [a[i, j]] on a two-dimensional array, for [0 <= i] and [0 <= j]:
    one indexing operation; [i] is checked against axis 0, then [j]
    against axis 1. *)
Definition getitem2 {A} (a : list (list A)) (i j : nat) : res A :=
  match a !! i with
  | None => Raise (index_error i 0 (length a))
  | Some row =>
      match row !! j with
      | Some x => Ok x
      | None => Raise (index_error j 1 (length row))
      end
  end.

End Py.

Declare Scope se_scope.
Delimit Scope se_scope with se.
Notation "x <- m ;; k" := (Py.bind m (fun x => k))
  (at level 100, m at next level, right associativity) : se_scope.
Notation "m ;;; k" := (Py.bind m (fun _ => k))
  (at level 100, right associativity) : se_scope.
Notation "x <-? r ;; k" := (Py.rbind r (fun x => k))
  (at level 100, r at next level, right associativity) : se_scope.

(** ** numpy: the process-wide generator and the array functions used *)

Module Numpy.
Import F64 Py.
Local Open Scope se_scope.

(** The generator behind [np.random]: a state, reseeding, and one draw of
    each distribution the sources sample from.  Which numbers come out is
    the library's business; the pipelines only thread the state. *)
Class RandomState := {
  rng : Type;
  rng_seed : Z -> rng;
  rng_randint : Z -> Z -> rng -> Z * rng;
  rng_uniform : float -> float -> rng -> float * rng;
  rng_normal : float -> float -> rng -> float * rng;
  rng_choice : list Z -> list float -> rng -> Z * rng;
  rng_binomial : Z -> float -> rng -> Z * rng
}.

(** What the library documents about the draws: [randint] stays in
    [[low, high)], [uniform] and [normal] return finite numbers. *)
Class RandomStateLaws (R : RandomState) : Prop := {
  randint_range : forall low high g,
    low < high -> low <= (rng_randint low high g).1 < high;
  uniform_finite : forall low high g,
    is_finite low = true -> is_finite high = true ->
    is_finite (rng_uniform low high g).1 = true;
  normal_finite : forall loc scale g,
    is_finite loc = true -> is_finite scale = true ->
    is_finite (rng_normal loc scale g).1 = true
}.

Section Draws.
Context {R : RandomState}.

(** [n] successive draws, in order. *)
Fixpoint draws {A} (step : rng -> A * rng) (n : nat) (g : rng) : list A * rng :=
  match n with
  | O => ([], g)
  | S n' => let '(x, g1) := step g in
            let '(xs, g2) := draws step n' g1 in
            (x :: xs, g2)
  end.

(** An array of [size] draws; a negative size is refused. *)
Definition sized {A} (step : rng -> A * rng) (size : Z) : SE rng (list A) :=
  fun g =>
    if size <? 0
    then (Raise (Exn ValueError "negative dimensions are not allowed"), g)
    else let '(xs, g') := draws step (Z.to_nat size) g in (Ok xs, g').

(** One draw per element of a parameter array. *)
Fixpoint draws_over {A B} (step : A -> rng -> B * rng) (ps : list A) (g : rng)
  : list B * rng :=
  match ps with
  | [] => ([], g)
  | p :: ps' => let '(x, g1) := step p g in
                let '(xs, g2) := draws_over step ps' g1 in
                (x :: xs, g2)
  end.

(** [np.random.seed(s)] *)
Definition seed (s : Z) : SE rng unit := put (rng_seed s).

(** [np.random.randint(low, high, size)] *)
Definition randint (low high size : Z) : SE rng (list Z) :=
  if high <=? low then raise (Exn ValueError "low >= high")
  else sized (rng_randint low high) size.

(** [np.random.uniform(low, high, size)] *)
Definition uniform (low high : float) (size : Z) : SE rng (list float) :=
  sized (rng_uniform low high) size.

(** [np.random.normal(loc, scale, size)] *)
Definition normal (loc scale : float) (size : Z) : SE rng (list float) :=
  if lt scale (of_Z 0) then raise (Exn ValueError "scale < 0")
  else sized (rng_normal loc scale) size.

(** The tolerance of [choice] on the sum of [p]: the square root of the
    machine epsilon, 2^-26. *)
Definition atol : float := S754_finite false 4503599627370496 (-78).

Definition fsum (p : list float) : float := foldl add (of_Z 0) p.

(** The validation [choice] performs on [a] and [p] before anything is
    drawn.  (The library sums [p] with compensation; the plain
    left-to-right sum is used here.) *)
Definition choice_check (a : list Z) (p : list float) : option exn :=
  if (length a =? 0)%nat
  then Some (Exn ValueError "'a' cannot be empty unless no samples are taken")
  else if negb (length a =? length p)%nat
  then Some (Exn ValueError "'a' and 'p' must have same size")
  else if existsb (fun x => lt x (of_Z 0) || is_nan x) p
  then Some (Exn ValueError "probabilities are not non-negative")
  else if gt (SFabs (SFsub prec emax (fsum p) (of_Z 1))) atol
  then Some (Exn ValueError "probabilities do not sum to 1")
  else None.

(** [np.random.choice(a, size, p=p)] for a list [a]. *)
Definition choice (a : list Z) (size : Z) (p : list float) : SE rng (list Z) :=
  match choice_check a p with
  | Some e => raise e
  | None => sized (rng_choice a p) size
  end.

(** A probability the binomial sampler accepts. *)
Definition valid_p (p : float) : bool :=
  negb (is_nan p) && negb (lt p (of_Z 0)) && negb (gt p (of_Z 1)).

Definition binomial_check (n : Z) (p : list float) : option exn :=
  if negb (forallb valid_p p)
  then Some (Exn ValueError "p < 0, p > 1 or p contains NaNs")
  else if n <? 0 then Some (Exn ValueError "n < 0")
  else None.

(** [np.random.binomial(n, p)] for an array [p]: one draw per element,
    after the whole array is validated. *)
Definition binomial (n : Z) (p : list float) : SE rng (list Z) :=
  match binomial_check n p with
  | Some e => raise e
  | None => fun g => let '(xs, g') := draws_over (rng_binomial n) p g in (Ok xs, g')
  end.

End Draws.

(** int64 array arithmetic wraps around. *)
Definition wrap64 (z : Z) : Z := (z + 2^63) mod 2^64 - 2^63.

End Numpy.

(** ** Files: the working directory of a pipeline *)

Module Disk.
Import Py.

(** The working directory holds serialized objects under their file
    names; a file is read back as the object that was written ([joblib]
    and [json] are format-preserving on what the pipelines store).  Some
    paths may be write-protected.  The console is part of the world. *)
Record world (O : Type) := World {
  files : gmap string O;
  readonly : gset string;
  stdout : list string
}.
Arguments World {O} _ _ _.
Arguments files {O} _.
Arguments readonly {O} _.
Arguments stdout {O} _.

Definition print {O} (line : string) : SE (world O) unit :=
  fun w => (Ok tt, World (files w) (readonly w) (stdout w ++ [line])).

(** Creating or truncating [path] and writing [obj] to it.  The file
    system refuses a write in one way: the path is write-protected, the
    open fails with [PermissionError] and the file is left as it was.  A
    write cut short after the file was opened would leave a truncated
    file; such files, like any content that does not decode, are not
    part of this model. *)
Definition write_file {O} (obj : O) (path : string) : SE (world O) unit :=
  fun w =>
    if bool_decide (path ∈ readonly w)
    then (Raise (Exn PermissionError
                   ("[Errno 13] Permission denied: '" +:+ path +:+ "'")), w)
    else (Ok tt, World (<[path := obj]> (files w)) (readonly w) (stdout w)).

(** Opening [path] for reading and decoding its content. *)
Definition read_file {O} (path : string) : SE (world O) O :=
  fun w =>
    match files w !! path with
    | Some obj => (Ok obj, w)
    | None => (Raise (Exn FileNotFoundError
                        ("[Errno 2] No such file or directory: '" +:+ path +:+ "'")), w)
    end.

(** [joblib.dump(obj, path)], [joblib.load(path)] *)
Definition joblib_dump {O} (obj : O) (path : string) := write_file obj path.
Definition joblib_load {O} (path : string) : SE (world O) O := read_file path.

(** [with open(path, 'w') as f: json.dump(obj, f, indent=2)] and
    [with open(path, 'r') as f: json.load(f)] *)
Definition json_dump {O} (obj : O) (path : string) := write_file obj path.
Definition json_load {O} (path : string) : SE (world O) O := read_file path.

Definition nl : string := String (Ascii.ascii_of_nat 10) EmptyString.

End Disk.

(** ** The churn classifier pipeline *)

Module Churn.
Import F64 Py Numpy Disk.
Local Open Scope se_scope.

(** *** train_churn_model.py: the data synthesizer *)

(** The DataFrame returned by the synthesizer, column by column. *)
Record dataframe := DataFrame {
  col_age : list Z;
  col_tenure : list Z;
  col_monthly_charges : list float;
  col_total_charges : list float;
  col_contract_type : list Z;
  col_payment_method : list Z;
  col_internet_service : list Z;
  col_tech_support : list Z;
  col_churn : list Z
}.

Definition nrows (d : dataframe) : nat := length (col_age d).

(** [c * (mask)]: a float times a boolean array. *)
Definition scaled (c : float) (mask : list bool) : list float :=
  (fun b => mul c (of_bool b)) <$> mask.

(** Lines 46-55: the affine churn probability, evaluated array-wise and
    left to right as the interpreter does. *)
Definition churn_probability_formula
    (tenure contract_type payment_method : list Z) (monthly_charges : list float)
    (age tech_support internet_service : list Z) : list float :=
  let s0 := add f0_1 <$> scaled f0_3 ((fun t => t <? 6) <$> tenure) in
  let s1 := zip_with add s0 (scaled f0_2 ((fun c => c =? 0) <$> contract_type)) in
  let s2 := zip_with add s1 (scaled f0_15 ((fun c => c =? 0) <$> payment_method)) in
  let s3 := zip_with add s2 (scaled f0_1 ((fun m => gt m (of_Z 80)) <$> monthly_charges)) in
  let s4 := zip_with add s3 (scaled f0_1 ((fun a => a <? 30) <$> age)) in
  let s5 := zip_with add s4 (scaled (neg f0_15) ((fun t => t =? 1) <$> tech_support)) in
  zip_with add s5 (scaled f0_1 ((fun i => i =? 1) <$> internet_service)).

(** The range of the formula, used to show that the binomial sampler
    always receives a probability. *)

(** The values one term [c * mask] can take, and the sums of two arrays
    whose elements range over [A] and [B]. *)
Definition both (c : float) : list float :=
  [mul c (of_bool true); mul c (of_bool false)].

Definition sums (A B : list float) : list float :=
  flat_map (fun a => add a <$> B) A.

(** Every value the affine formula can produce: 128 sums. *)
Definition reachable : list float :=
  let s0 := add f0_1 <$> both f0_3 in
  let s1 := sums s0 (both f0_2) in
  let s2 := sums s1 (both f0_15) in
  let s3 := sums s2 (both f0_1) in
  let s4 := sums s3 (both f0_1) in
  let s5 := sums s4 (both (neg f0_15)) in
  sums s5 (both f0_1).

Section Synthesizer.
Context {R : RandomState}.

(** Lines 17-64. *)
Definition generate_synthetic_data (n_samples : Z) : SE rng dataframe :=
  seed 42 ;;;
  age <- randint 18 81 n_samples ;;
  tenure <- randint 1 73 n_samples ;;
  monthly_charges <- uniform (of_Z 20) (of_Z 120) n_samples ;;
  noise <- normal (of_Z 0) (of_Z 100) n_samples ;;
  let total_charges :=
    zip_with add (zip_with mul monthly_charges (of_Z <$> tenure)) noise in
  let total_charges := (fun x => maximum x (of_Z 20)) <$> total_charges in
  contract_type <- choice [0; 1; 2] n_samples [f0_5; f0_3; f0_2] ;;
  payment_method <- choice [0; 1; 2; 3] n_samples [f0_4; f0_2; f0_2; f0_2] ;;
  internet_service <- choice [0; 1; 2] n_samples [f0_4; f0_4; f0_2] ;;
  tech_support <- choice [0; 1] n_samples [f0_6; f0_4] ;;
  let churn_probability :=
    churn_probability_formula tenure contract_type payment_method
      monthly_charges age tech_support internet_service in
  let churn_probability :=
    (fun p => clip p (of_Z 0) (of_Z 1)) <$> churn_probability in
  churn <- binomial 1 churn_probability ;;
  ret (DataFrame age tenure monthly_charges total_charges contract_type
         payment_method internet_service tech_support churn).

End Synthesizer.

(** *** The fitted model and its metadata *)

(** A one-row DataFrame: the columns in order, each with its value. *)
Abbreviation frame := (list (string * pyval)).

(** The fitted classifier, an opaque object with two methods; each
    returns an array with one entry per row, or raises. *)
Record Model := {
  predict : frame -> res (list Z);
  predict_proba : frame -> res (list (list float))
}.

(** The [feature_info] dictionary of [train_model] (lines 137-142). *)
Record model_info := ModelInfo {
  feature_names : list string;
  model_type : string;
  accuracy : float;
  feature_importance : list (string * float)
}.

(** [pd.DataFrame([record])] *)
Definition DataFrame_of (record : pydict) : frame := record.

(** pandas: [missing_message names missing] is [str(e)] of the
    [KeyError] that [df[names]] raises when the labels [missing], in
    the order of [names], are not columns.  The wording belongs to the
    installed pandas (it differs between releases and with the number
    of labels); the pipelines only pass the text on. *)
Class Pandas := {
  missing_message : list string -> list string -> string
}.

Section Predictor.
Context {Pd : Pandas}.

(** [df[names]]: the named columns in the order of [names]; any label
    that is not a column raises [KeyError]; other columns are left out. *)
Definition select_columns (df : frame) (names : list string) : res frame :=
  match filter (fun n => n ∉ keys df) names with
  | [] => Ok (omap (fun n => pair n <$> dict_get df n) names)
  | missing => Raise (Exn KeyError (missing_message names missing))
  end.

(** *** test_churn_model.py: the predictor *)

(** Lines 37-43. *)
Definition risk_level (churn_probability : float) : string :=
  if gt churn_probability f0_7 then "High"
  else if gt churn_probability f0_3 then "Medium"
  else "Low".

(** The rule in the words of the specification: "High" above 0.7,
    "Medium" above 0.3 and up to 0.7, "Low" otherwise. *)
Definition risk_level_spec (p : float) : string :=
  if gt p f0_7 then "High"
  else if lt f0_3 p && le p f0_7 then "Medium"
  else "Low".

(** The body of the [try] block, lines 28-51. *)
Definition predict_churn_body (model : Model) (info : model_info)
    (customer_data : pydict) : res pydict :=
  let input_df := DataFrame_of customer_data in
  input_df <-? select_columns input_df (feature_names info) ;;
  predictions <-? predict model input_df ;;
  prediction <-? getitem predictions 0 ;;
  probas <-? predict_proba model input_df ;;
  probabilities <-? getitem probas 0 ;;
  churn_probability <-? getitem probabilities 1 ;;
  let risk := risk_level churn_probability in
  no_churn_probability <-? getitem probabilities 0 ;;
  Ok [ ("prediction", VInt prediction);
       ("churn_probability", VFloat churn_probability);
       ("no_churn_probability", VFloat no_churn_probability);
       ("risk_level", VStr risk);
       ("prediction_label", VStr (if prediction =? 1 then "Churn" else "No Churn")) ].

(** Lines 25-54. *)
Definition predict_churn (model : Model) (info : model_info)
    (customer_data : pydict) : res pydict :=
  pure_try (predict_churn_body model info customer_data)
    Exception (fun e => Ok [("error", VStr (exn_str e))]).

(** train_churn_model.py, line 209: the same rule as a conditional
    expression. *)
Definition risk_level_inline (probability : float) : string :=
  if gt probability f0_7 then "High" else
    (if gt probability f0_3 then "Medium" else "Low").

(** train_churn_model.py, lines 196-209: one pass of the loop of
    [test_sample_predictions], returning what it prints (prediction,
    probability, risk level).  Nothing is caught here. *)
Definition test_sample_prediction (model : Model) (feature_columns : list string)
    (data : pydict) : res (Z * float * string) :=
  let input_data := DataFrame_of data in
  input_data <-? select_columns input_data feature_columns ;;
  predictions <-? predict model input_data ;;
  prediction <-? getitem predictions 0 ;;
  probas <-? predict_proba model input_data ;;
  probability <-? getitem2 probas 0 1 ;;
  Ok (prediction, probability, risk_level_inline probability).

End Predictor.

(** *** Artifacts on disk *)

Inductive obj :=
  | ObjModel (m : Model)
  | ObjInfo (i : model_info).

Definition model_file : string := "customer_churn_model.pkl".
Definition info_file : string := "model_info.pkl".

(** train_churn_model.py, lines 78-81. *)
Definition feature_columns : list string :=
  [ "age"; "tenure"; "monthly_charges"; "total_charges";
    "contract_type"; "payment_method"; "internet_service"; "tech_support" ].

(** train_churn_model.py, lines 131-145: the end of [train_model], from
    the fitted model, its accuracy and the sorted importances. *)
Definition train_model_save (model : Model) (accuracy : float)
    (feature_importance : list (string * float)) : SE (world obj) unit :=
  let model_path := model_file in
  joblib_dump (ObjModel model) model_path ;;;
  print (nl +:+ "💾 Model saved to: " +:+ model_path) ;;;
  let feature_info :=
    ModelInfo feature_columns "RandomForestClassifier" accuracy feature_importance in
  joblib_dump (ObjInfo feature_info) info_file ;;;
  print "📋 Model info saved to: model_info.pkl".

(** test_churn_model.py, lines 14-23.  [None] is Python's [None]. *)
Definition load_model : SE (world obj) (option obj * option obj) :=
  try_except
    (model <- joblib_load model_file ;;
     model_info <- joblib_load info_file ;;
     ret (Some model, Some model_info))
    (only FileNotFoundError)
    (fun e =>
       print ("❌ Model file not found: " +:+ exn_str e) ;;;
       print "🔧 Please run 'python train_churn_model.py' first to create the model." ;;;
       ret (None, None)).

End Churn.

(** ** The house price pipeline *)

Module House.
Import F64 Py Numpy Disk.
Local Open Scope se_scope.

(** *** train_model.py: the data synthesizer *)

Record dataframe := DataFrame {
  col_bedrooms : list Z;
  col_bathrooms : list Z;
  col_sqft : list Z;
  col_age : list Z;
  col_price : list float
}.

Definition nrows (d : dataframe) : nat := length (col_bedrooms d).

Definition base_price : Z := 50000.
Definition price_per_bedroom : Z := 25000.
Definition price_per_bathroom : Z := 15000.
Definition price_per_sqft : Z := 100.
Definition age_depreciation : Z := 1000.

(** int64 array arithmetic, element by element. *)
Definition iadd (x y : Z) : Z := wrap64 (x + y).
Definition isub (x y : Z) : Z := wrap64 (x - y).
Definition imul (x y : Z) : Z := wrap64 (x * y).

(** Lines 32-36, before the noise is added: an int64 array. *)
Definition price_without_noise (bedrooms bathrooms sqft age : list Z) : list Z :=
  let t1 := iadd base_price <$> ((fun b => imul b price_per_bedroom) <$> bedrooms) in
  let t2 := zip_with iadd t1 ((fun b => imul b price_per_bathroom) <$> bathrooms) in
  let t3 := zip_with iadd t2 ((fun s => imul s price_per_sqft) <$> sqft) in
  zip_with isub t3 ((fun a => imul a age_depreciation) <$> age).

Section Synthesizer.
Context {R : RandomState}.

(** Lines 15-51. *)
Definition generate_sample_data (n_samples : Z) : SE rng dataframe :=
  seed 42 ;;;
  bedrooms <- randint 1 6 n_samples ;;
  bathrooms <- randint 1 4 n_samples ;;
  sqft <- randint 800 4000 n_samples ;;
  age <- randint 0 50 n_samples ;;
  noise <- normal (of_Z 0) (of_Z 20000) n_samples ;;
  let prices :=
    zip_with add (of_Z <$> price_without_noise bedrooms bathrooms sqft age) noise in
  let prices := (fun x => maximum x (of_Z 50000)) <$> prices in
  ret (DataFrame bedrooms bathrooms sqft age prices).

End Synthesizer.

(** *** The fitted model and its metadata *)

(** The fitted regressor: [predict] takes the rows as positional lists
    and returns one price per row, or raises. *)
Record Model := {
  predict : list (list pyval) -> res (list float)
}.

Record performance_info := Performance {
  r2_score : float;
  rmse : float
}.

(** The [model_info] dictionary of [train_model] (lines 100-121). *)
Record model_info := ModelInfo {
  model_type : string;
  features : list string;
  feature_descriptions : list (string * string);
  target : string;
  target_description : string;
  performance : performance_info;
  sample_input : list (string * Z)
}.

Inductive obj :=
  | ObjModel (m : Model)
  | ObjInfo (i : model_info).

Definition model_file : string := "house_price_model.pkl".
Definition info_file : string := "model_info.json".

(** train_model.py, line 68. *)
Definition feature_list : list string := ["bedrooms"; "bathrooms"; "sqft"; "age"].

(** train_model.py, lines 94-126: the end of [train_model], from the
    fitted model and the two scores computed on the test partition. *)
Definition train_model_save (model : Model) (r2 mse : float)
  : SE (world obj) unit :=
  let model_filename := model_file in
  joblib_dump (ObjModel model) model_filename ;;;
  print (nl +:+ "💾 Model saved as: " +:+ model_filename) ;;;
  let info :=
    ModelInfo "LinearRegression" feature_list
      [ ("bedrooms", "Number of bedrooms (1-5)");
        ("bathrooms", "Number of bathrooms (1-3)");
        ("sqft", "Square footage (800-4000)");
        ("age", "Age of house in years (0-50)") ]
      "price" "House price in USD"
      (Performance r2 (SFsqrt prec emax mse))
      [ ("bedrooms", 3); ("bathrooms", 2); ("sqft", 1500); ("age", 10) ] in
  json_dump (ObjInfo info) info_file ;;;
  print "📋 Model info saved as: model_info.json".

(** test_model.py, lines 10-20. *)
Definition load_model : SE (world obj) (option obj * option obj) :=
  try_except
    (model <- joblib_load model_file ;;
     model_info <- json_load info_file ;;
     ret (Some model, Some model_info))
    (only FileNotFoundError)
    (fun e =>
       print ("❌ Error: " +:+ exn_str e) ;;;
       print "Please run 'python train_model.py' first to create the model." ;;;
       ret (None, None)).

(** test_model.py, line 59: the prediction of one test case, from the
    positional feature list. *)
Definition test_prediction (model : Model) (features : list pyval) : res float :=
  predictions <-? predict model [features] ;;
  getitem predictions 0.

End House.

(** ** Concrete objects used to exercise the definitions *)

Module Examples.
Import F64 Py Numpy Disk.

(** A small linear congruential generator standing in for the library's
    generator.  Its normal draws swing between a large negative and a
    large positive number so that the floors of both synthesizers fire. *)
Definition lcg_next (g : Z) : Z := (g * 1103515245 + 12345) mod 2147483648.

Definition lcg : RandomState := {|
  rng := Z;
  rng_seed := fun s => s mod 2147483648;
  rng_randint := fun low high g => (low + g mod (high - low), lcg_next g);
  rng_uniform := fun low high g => (low, lcg_next g);
  rng_normal := fun loc scale g =>
    (if Z.even g then S754_finite true 1 20 else S754_finite false 3 18, lcg_next g);
  rng_choice := fun a p g => (nth (Z.to_nat (g mod Z.of_nat (length a))) a 0, lcg_next g);
  rng_binomial := fun n p g => (if gt p f0_5 then n else 0, lcg_next g)
|}.

Definition f0_8 : float := S754_finite false 7205759403792794 (-53). (* 0x1.999999999999ap-1 *)

(** A classifier that answers from the tenure column alone. *)
Definition by_tenure : Churn.Model := {|
  Churn.predict := fun df =>
    match dict_get df "tenure" with
    | Some (VInt t) => Ok [if t <? 6 then 1 else 0]
    | _ => Raise (Exn ValueError "could not convert input")
    end;
  Churn.predict_proba := fun df =>
    match dict_get df "tenure" with
    | Some (VInt t) => Ok [if t <? 6 then [f0_2; f0_8] else [f0_8; f0_2]]
    | _ => Raise (Exn ValueError "could not convert input")
    end
|}.

Definition tenure_only : Churn.model_info :=
  Churn.ModelInfo ["tenure"] "RandomForestClassifier" f0_7 [("tenure", of_Z 1)].

Definition churn_info : Churn.model_info :=
  Churn.ModelInfo Churn.feature_columns "RandomForestClassifier" f0_7 [].

(** The "High Risk Customer" of the sources, in two key orders. *)
Definition high_risk : pydict :=
  [ ("age", VInt 25); ("tenure", VInt 3); ("monthly_charges", VFloat (of_Z 95));
    ("total_charges", VFloat (of_Z 285)); ("contract_type", VInt 0);
    ("payment_method", VInt 0); ("internet_service", VInt 1);
    ("tech_support", VInt 0) ].

Definition high_risk_shuffled : pydict :=
  [ ("tech_support", VInt 0); ("tenure", VInt 3); ("age", VInt 25);
    ("total_charges", VFloat (of_Z 285)); ("payment_method", VInt 0);
    ("monthly_charges", VFloat (of_Z 95)); ("internet_service", VInt 1);
    ("contract_type", VInt 0) ].

(** A stand-in for the wording pandas gives a missing-label error. *)
Definition plain_pandas : Churn.Pandas := {|
  Churn.missing_message := fun names missing =>
    "labels not in the columns: " +:+ String.concat ", " missing
|}.

(** A classifier whose call is cut short from the keyboard. *)
Definition interrupted : Churn.Model := {|
  Churn.predict := fun _ => Raise (Exn KeyboardInterrupt "");
  Churn.predict_proba := fun _ => Raise (Exn KeyboardInterrupt "")
|}.

(** A regressor that prices by the square footage, the third feature. *)
Definition by_sqft : House.Model := {|
  House.predict := fun rows =>
    Ok ((fun row => match row !! 2%nat with
                    | Some (VInt s) => of_Z (100 * s)
                    | _ => of_Z 0
                    end) <$> rows)
|}.

(** An empty working directory, and one whose metadata paths are
    write-protected. *)
Definition empty_dir {O} : world O := World ∅ ∅ [].
Definition protected_dir {O} : world O :=
  World ∅ {[ Churn.info_file; House.info_file ]} [].

End Examples.

(** ** Row-wise views of the synthesizers *)

Module Rowwise.
Import F64 Py Numpy.

(** What the library documents about the remaining draws: [uniform]
    stays in [[low, high)], [choice] returns an element of [a], and
    [binomial] a count between 0 and [n]. *)
Class SamplerLaws (R : RandomState) : Prop := {
  uniform_range : forall low high g,
    lt low high = true ->
    le low (rng_uniform low high g).1 = true /\ lt (rng_uniform low high g).1 high = true;
  choice_member : forall a p g, a <> [] -> (rng_choice a p g).1 ∈ a;
  binomial_range : forall n p g, 0 <= n -> 0 <= (rng_binomial n p g).1 <= n
}.

(** train_churn_model.py, lines 46-55, for one customer, from the seven
    conditions of the formula. *)
Definition churn_probability_flags
    (new_customer month_to_month electronic_check high_charges young
     tech_support fiber : bool) : float :=
  add (add (add (add (add (add (add f0_1
    (mul f0_3 (of_bool new_customer)))
    (mul f0_2 (of_bool month_to_month)))
    (mul f0_15 (of_bool electronic_check)))
    (mul f0_1 (of_bool high_charges)))
    (mul f0_1 (of_bool young)))
    (mul (neg f0_15) (of_bool tech_support)))
    (mul f0_1 (of_bool fiber)).

Definition churn_probability_row
    (tenure contract_type payment_method : Z) (monthly_charges : float)
    (age tech_support internet_service : Z) : float :=
  churn_probability_flags (tenure <? 6) (contract_type =? 0) (payment_method =? 0)
    (gt monthly_charges (of_Z 80)) (age <? 30) (tech_support =? 1)
    (internet_service =? 1).

(** Lines 57-58: the probability handed to the binomial sampler. *)
Definition clipped (p : float) : float := clip p (of_Z 0) (of_Z 1).

(** train_churn_model.py, lines 25-26, for one customer. *)
Definition total_charges_row (monthly_charges : float) (tenure : Z) (noise : float)
  : float :=
  maximum (add (mul monthly_charges (of_Z tenure)) noise) (of_Z 20).

(** train_model.py, lines 32-36, for one house, in unbounded integers. *)
Definition linear_price (bedrooms bathrooms sqft age : Z) : Z :=
  House.base_price + bedrooms * House.price_per_bedroom
  + bathrooms * House.price_per_bathroom + sqft * House.price_per_sqft
  - age * House.age_depreciation.

(** train_model.py, lines 32-40, for one house. *)
Definition price_row (bedrooms bathrooms sqft age : Z) (noise : float) : float :=
  maximum (add (of_Z (linear_price bedrooms bathrooms sqft age)) noise) (of_Z 50000).

Section Noise.
Context {R : RandomState}.

(** train_churn_model.py, line 25: the array [noise] of a run with [n]
    rows.  It is the fourth array drawn after the seeding, [n] normal
    draws of mean 0 and deviation 100 from the generator as the ages,
    the tenures and the monthly charges left it. *)
Definition churn_noise (n : nat) : list float :=
  let after_age := (draws (rng_randint 18 81) n (rng_seed 42)).2 in
  let after_tenure := (draws (rng_randint 1 73) n after_age).2 in
  let after_charges := (draws (rng_uniform (of_Z 20) (of_Z 120)) n after_tenure).2 in
  (draws (rng_normal (of_Z 0) (of_Z 100)) n after_charges).1.

(** train_model.py, line 39: the array [noise] of a run with [n] rows,
    the fifth array drawn after the seeding: [n] normal draws of mean 0
    and deviation 20000 from the generator as the four feature arrays
    left it. *)
Definition house_noise (n : nat) : list float :=
  let after_bedrooms := (draws (rng_randint 1 6) n (rng_seed 42)).2 in
  let after_bathrooms := (draws (rng_randint 1 4) n after_bedrooms).2 in
  let after_sqft := (draws (rng_randint 800 4000) n after_bathrooms).2 in
  let after_age := (draws (rng_randint 0 50) n after_sqft).2 in
  (draws (rng_normal (of_Z 0) (of_Z 20000)) n after_age).1.

End Noise.

(** The three labels in increasing order of risk. *)
Definition risk_rank (label : string) : nat :=
  if decide (label = "High") then 2
  else if decide (label = "Medium") then 1
  else 0.

End Rowwise.

(** ** Result records and the canned customer profiles *)

Module Profiles.
Import F64 Py.

(** The dictionary of test_churn_model.py, lines 45-51, from the
    prediction and the two class probabilities. *)
Definition result_record (prediction : Z) (churn_probability no_churn_probability : float)
  : pydict :=
  [ ("prediction", VInt prediction);
    ("churn_probability", VFloat churn_probability);
    ("no_churn_probability", VFloat no_churn_probability);
    ("risk_level", VStr (Churn.risk_level churn_probability));
    ("prediction_label", VStr (if prediction =? 1 then "Churn" else "No Churn")) ].

(** A customer dictionary in the key order both scripts write; the two
    charges are whole numbers written as floats. *)
Definition profile (age tenure monthly_charges total_charges
                    contract_type payment_method internet_service tech_support : Z)
  : pydict :=
  [ ("age", VInt age); ("tenure", VInt tenure);
    ("monthly_charges", VFloat (of_Z monthly_charges));
    ("total_charges", VFloat (of_Z total_charges));
    ("contract_type", VInt contract_type);
    ("payment_method", VInt payment_method);
    ("internet_service", VInt internet_service);
    ("tech_support", VInt tech_support) ].

(** train_churn_model.py, lines 154-194. *)
Definition test_cases : list (string * pydict) :=
  [ ("Low Risk Customer", profile 45 36 65 2340 2 3 0 1);
    ("High Risk Customer", profile 25 3 95 285 0 0 1 0);
    ("Medium Risk Customer", profile 35 18 75 1350 1 2 0 1) ].

(** test_churn_model.py, lines 71-137. *)
Definition test_customers : list (string * pydict) :=
  [ ("Loyal Long-term Customer", profile 55 60 70 4200 2 3 0 1);
    ("New High-Value Customer", profile 30 2 110 220 0 0 1 0);
    ("Budget-Conscious Customer", profile 40 24 35 840 1 2 2 0);
    ("Young Professional", profile 28 8 85 680 0 3 1 1);
    ("Senior Customer", profile 68 48 45 2160 2 1 0 1) ].

(** A model with a single class: its probability rows have one entry. *)
Definition single_class : Churn.Model := {|
  Churn.predict := fun _ => Ok [0];
  Churn.predict_proba := fun _ => Ok [[of_Z 1]]
|}.

End Profiles.

(** ** More working directories *)

Module Directories.
Import F64 Py Disk Examples.

(** A directory left by an earlier training run whose metadata file has
    since been write-protected. *)
Definition stale_dir : world Churn.obj :=
  World {[ Churn.model_file := Churn.ObjModel by_tenure;
           Churn.info_file := Churn.ObjInfo tenure_only;
           "notes.txt" := Churn.ObjInfo churn_info ]}
        {[ Churn.info_file ]} [].

End Directories.

(** ** The quick-start scripts *)

Module QuickStart.
Import Py.

(** A child process is started from an argument vector or, with
    [shell=True], from a command line. *)
Inductive cmd :=
  | ArgV (argv : list string)
  | Shell (line : string).

(** What a finished child reports. *)
Record completed := Completed {
  returncode : Z;
  child_stdout : string;
  child_stderr : string
}.

(** What a child can change: the files of the working directory (with
    their sizes in bytes) and the importable packages. *)
Record env := Env {
  present : gmap string N;
  importable : gset string
}.

(** The script's view of the world: the environment, its standard
    output, and the children it has run so far with their return codes. *)
Record sys := Sys {
  sys_env : env;
  console : list string;
  log : list (cmd * Z)
}.

(** The operating system: the interpreter path, what each child does,
    and the text of a [CalledProcessError]. *)
Class Processes := {
  sys_executable : string;
  child : cmd -> env -> completed * env;
  called_process_error_str : cmd -> Z -> string
}.

(** How [main] ends: by returning, or through [sys.exit(code)]. *)
Inductive ending :=
  | Returned
  | Exited (code : Z).

Definition print (line : string) (s : sys) : sys :=
  Sys (sys_env s) (console s ++ [line]) (log s).

Definition prints (lines : list string) (s : sys) : sys :=
  foldl (fun s line => print line s) s lines.

(** [os.path.exists(path)] *)
Definition path_exists (path : string) (s : sys) : bool :=
  bool_decide (is_Some (present (sys_env s) !! path)).

(** [os.path.getsize(path)] of an existing file. *)
Definition getsize (path : string) (s : sys) : N :=
  default 0%N (present (sys_env s) !! path).

Definition nl : string := String (Ascii.ascii_of_nat 10) EmptyString.
Definition dq : string := String (Ascii.ascii_of_nat 34) EmptyString.
Definition quoted (s : string) : string := dq +:+ s +:+ dq.

(** The first character of a line, if any. *)
Definition first_char (s : string) : option Ascii.ascii :=
  match s with
  | EmptyString => None
  | String c _ => Some c
  end.

(** ["=" * 50] *)
Definition rule : string := "==================================================".

(** The format [{n:,}]: decimal digits in groups of three. *)
Fixpoint group_rev (digits : list Ascii.ascii) (k : nat) : list Ascii.ascii :=
  match digits with
  | [] => []
  | c :: rest =>
      if (k =? 3)%nat then Ascii.ascii_of_nat 44 :: c :: group_rev rest 1
      else c :: group_rev rest (S k)
  end.

Definition thousands (n : N) : string :=
  String.string_of_list_ascii
    (rev (group_rev (rev (String.list_ascii_of_string (pretty n))) 0)).

Section Scripts.
Context {P : Processes}.

(** Running a child to its end; the call is recorded in the log. *)
Definition run_child (c : cmd) (s : sys) : completed * sys :=
  let '(r, e) := child c (sys_env s) in
  (r, Sys e (console s) (log s ++ [(c, returncode r)])).

(** *** classification-ml-model/quick_start.py *)

Definition pip_argv : cmd :=
  ArgV [sys_executable; "-m"; "pip"; "install"; "-r"; "requirements.txt"].
Definition train_argv : cmd := ArgV [sys_executable; "train_churn_model.py"].

(** [subprocess.check_call(argv)] inside [try ... except
    CalledProcessError]: the child writes to the script's standard
    output; a non-zero return code is the exception. *)
Definition check_call (c : cmd) (s : sys) : completed * sys :=
  let '(r, s1) := run_child c s in
  (r, if decide (child_stdout r = "") then s1 else print (child_stdout r) s1).

(** Lines 12-21. *)
Definition install_requirements (s : sys) : bool * sys :=
  let s := print "📦 Installing required packages..." s in
  let '(r, s) := check_call pip_argv s in
  if returncode r =? 0
  then (true, print "✅ Packages installed successfully" s)
  else (false, print ("❌ Failed to install packages: "
                      +:+ called_process_error_str pip_argv (returncode r)) s).

(** Lines 23-32. *)
Definition train_model (s : sys) : bool * sys :=
  let s := print "🚀 Training customer churn model..." s in
  let '(r, s) := check_call train_argv s in
  if returncode r =? 0
  then (true, print "✅ Model trained successfully" s)
  else (false, print ("❌ Failed to train model: "
                      +:+ called_process_error_str train_argv (returncode r)) s).

(** Lines 34-43. *)
Definition verify_model (s : sys) : bool * sys :=
  let model_file := "customer_churn_model.pkl" in
  if path_exists model_file s
  then (true, print ("✅ Model file created: " +:+ model_file +:+ " ("
                     +:+ thousands (getsize model_file s) +:+ " bytes)") s)
  else (false, print ("❌ Model file not found: " +:+ model_file) s).

(** Lines 79-103: the sample test data, one multi-line string. *)
Definition sample_block : string :=
  String.concat nl
    [ "";
      "    High Risk Customer:";
      "    {";
      "      " +:+ quoted "age" +:+ ": 25,";
      "      " +:+ quoted "tenure" +:+ ": 3,";
      "      " +:+ quoted "monthly_charges" +:+ ": 95.0,";
      "      " +:+ quoted "total_charges" +:+ ": 285.0,";
      "      " +:+ quoted "contract_type" +:+ ": 0,";
      "      " +:+ quoted "payment_method" +:+ ": 0,";
      "      " +:+ quoted "internet_service" +:+ ": 1,";
      "      " +:+ quoted "tech_support" +:+ ": 0";
      "    }";
      "    ";
      "    Low Risk Customer:";
      "    {";
      "      " +:+ quoted "age" +:+ ": 45,";
      "      " +:+ quoted "tenure" +:+ ": 36,";
      "      " +:+ quoted "monthly_charges" +:+ ": 65.0,";
      "      " +:+ quoted "total_charges" +:+ ": 2340.0,";
      "      " +:+ quoted "contract_type" +:+ ": 2,";
      "      " +:+ quoted "payment_method" +:+ ": 3,";
      "      " +:+ quoted "internet_service" +:+ ": 0,";
      "      " +:+ quoted "tech_support" +:+ ": 1";
      "    }";
      "    " ].

(** Lines 67-103. *)
Definition churn_success_lines : list string :=
  [ nl +:+ "🎉 Success! Your model is ready!";
    "📁 Files created:";
    "   - customer_churn_model.pkl (upload this to your dashboard)";
    "   - model_info.pkl (model metadata)";
    nl +:+ "📤 Next steps:";
    "1. Go to your ML Model Dashboard";
    "2. Click 'Upload Model'";
    "3. Upload the 'customer_churn_model.pkl' file";
    "4. Use these sample inputs for testing:";
    nl +:+ "🧪 Sample test data:";
    sample_block ].

(** Lines 45-103. *)
Definition churn_main (s : sys) : sys :=
  let s := prints ["🎯 Customer Churn Model - Quick Start"; rule] s in
  if negb (path_exists "requirements.txt" s)
  then print "❌ Please run this script from the classification-ml-model directory" s
  else
    let '(ok, s) := install_requirements s in
    if negb ok then s else
    let '(ok, s) := train_model s in
    if negb ok then s else
    let '(ok, s) := verify_model s in
    if negb ok then s else
    prints churn_success_lines s.

(** *** sample-ml-model/quick_start.py *)

(** Lines 10-22: [subprocess.run(command, shell=True, check=True,
    capture_output=True, text=True)] inside [try ... except
    CalledProcessError]; the child's output is captured. *)
Definition run_command (command description : string) (s : sys) : bool * sys :=
  let s := print (nl +:+ "🔄 " +:+ description +:+ "...") s in
  let '(result, s) := run_child (Shell command) s in
  if returncode result =? 0
  then
    let s := print ("✅ " +:+ description +:+ " completed successfully!") s in
    (true, if decide (child_stdout result = "") then s
           else print (child_stdout result) s)
  else
    let s := print ("❌ " +:+ description +:+ " failed!") s in
    (false, print ("Error: " +:+ child_stderr result) s).

Definition required_packages : list string := ["sklearn"; "pandas"; "numpy"; "joblib"].

(** Lines 24-43. *)
Definition check_python_packages (s : sys) : bool * sys :=
  let missing_packages :=
    filter (fun package => package ∉ importable (sys_env s)) required_packages in
  match missing_packages with
  | [] => (true, print "✅ All required packages are installed!" s)
  | _ =>
      let s := print ("❌ Missing packages: " +:+ String.concat ", " missing_packages) s in
      let s := print "Installing required packages..." s in
      let '(ok, s) := run_command "pip install -r requirements.txt"
                        "Installing dependencies" s in
      if negb ok then (false, s) else (true, s)
  end.

Definition house_intro_lines : list string :=
  [ "🚀 ML Model Quick Start"; rule; "This script will:";
    "1. Check/install Python dependencies";
    "2. Train a house price prediction model";
    "3. Test the model with sample data";
    "4. Generate files ready for upload" ].

Definition house_final_lines : list string :=
  [ nl +:+ rule;
    "🎉 Quick start completed!";
    nl +:+ "Files created:";
    "  📦 house_price_model.pkl - Upload this to your ML API";
    "  📋 model_info.json - Model metadata";
    nl +:+ "Next steps:";
    "1. Go to your ML API dashboard (http://localhost:3000)";
    "2. Click 'Upload' in the navigation";
    "3. Upload the 'house_price_model.pkl' file";
    "4. Test predictions via the API!";
    nl +:+ "💡 Sample API input format:";
    "{";
    "  " +:+ quoted "bedrooms" +:+ ": 3,";
    "  " +:+ quoted "bathrooms" +:+ ": 2,";
    "  " +:+ quoted "sqft" +:+ ": 1500,";
    "  " +:+ quoted "age" +:+ ": 10";
    "}" ].

(** Lines 45-90. *)
Definition house_main (s : sys) : ending * sys :=
  let s := prints house_intro_lines s in
  if negb (path_exists "train_model.py" s)
  then (Exited 1,
        print "❌ Error: Please run this script from the sample-ml-model directory" s)
  else
    let '(ok, s) := check_python_packages s in
    if negb ok then (Exited 1, print "❌ Failed to install dependencies" s) else
    let '(ok, s) := run_command "python train_model.py" "Training model" s in
    if negb ok then (Exited 1, s) else
    let '(ok, s) := run_command "python test_model.py" "Testing model" s in
    let s := if negb ok
             then print "⚠️ Testing failed, but model was created successfully" s
             else s in
    (Returned, prints house_final_lines s).

End Scripts.

(** A stand-in operating system: the training command writes the model
    file; the test command fails; everything else succeeds silently. *)
Definition toy_os : Processes := {|
  sys_executable := "/usr/bin/python3";
  child := fun c e =>
    match c with
    | ArgV [_; "train_churn_model.py"] =>
        (Completed 0 "trained" "",
         Env (<["customer_churn_model.pkl" := 1234567%N]> (present e)) (importable e))
    | Shell "python test_model.py" => (Completed 1 "" "boom", e)
    | _ => (Completed 0 "" "", e)
    end;
  called_process_error_str := fun c code =>
    "Command returned non-zero exit status " +:+ pretty code +:+ "."
|}.

Definition fresh_checkout : sys :=
  Sys (Env {[ "requirements.txt" := 40%N; "train_model.py" := 5000%N ]} ∅) [] [].

End QuickStart.


(** * Properties *)

Module F64Facts.
Import F64.

Lemma literals_are_quotients :
  div (of_Z 1) (of_Z 10) = f0_1 /\ div (of_Z 15) (of_Z 100) = f0_15 /\
  div (of_Z 2) (of_Z 10) = f0_2 /\ div (of_Z 3) (of_Z 10) = f0_3 /\
  div (of_Z 4) (of_Z 10) = f0_4 /\ div (of_Z 6) (of_Z 10) = f0_6 /\
  div (of_Z 7) (of_Z 10) = f0_7 /\ div (of_Z 1) (of_Z 2) = f0_5.
Proof. vm_compute. repeat split. Qed.

(** Comparison is antisymmetric: swapping the operands flips the outcome. *)
Lemma SFcompare_swap (x y : float) :
  SFcompare y x = CompOpp <$> SFcompare x y.
Proof.
  destruct x as [sx|sx| |sx mx ex], y as [sy|sy| |sy my ey]; simpl;
    try reflexivity;
    try (destruct sx; reflexivity); try (destruct sy; reflexivity);
    try (destruct sx, sy; reflexivity).
  destruct sx, sy; simpl; try reflexivity;
    change (Pos.compare_cont Eq my mx) with (my ?= mx)%positive;
    change (Pos.compare_cont Eq mx my) with (mx ?= my)%positive;
    rewrite (Z.compare_antisym ex ey), (Pos.compare_antisym mx my);
    destruct (ex ?= ey); simpl; try reflexivity;
    destruct (mx ?= my)%positive; reflexivity.
Qed.

Lemma SFcompare_None (x y : float) :
  SFcompare x y = None <-> is_nan x = true \/ is_nan y = true.
Proof.
  destruct x as [sx|sx| |sx mx ex], y as [sy|sy| |sy my ey]; simpl;
    split; intros H; try discriminate; try tauto; try reflexivity;
    destruct H; discriminate.
Qed.

Lemma gt_not_nan (x y : float) : gt x y = true -> is_nan x = false /\ is_nan y = false.
Proof.
  unfold gt, SFltb. intros H.
  destruct (SFcompare y x) eqn:E; [|discriminate].
  split.
  - destruct (is_nan x) eqn:N; [|reflexivity].
    assert (SFcompare y x = None) by (apply SFcompare_None; tauto). congruence.
  - destruct (is_nan y) eqn:N; [|reflexivity].
    assert (SFcompare y x = None) by (apply SFcompare_None; tauto). congruence.
Qed.

(** On numbers, "not greater" is "less or equal". *)
Lemma not_gt_le (x y : float) :
  is_nan x = false -> is_nan y = false -> gt x y = false -> le x y = true.
Proof.
  unfold gt, le, SFltb, SFleb. intros Hx Hy.
  rewrite (SFcompare_swap y x).
  destruct (SFcompare y x) as [c|] eqn:E.
  - destruct c; simpl; congruence.
  - apply SFcompare_None in E. destruct E; congruence.
Qed.

(** *** Rounding never manufactures a NaN *)

Lemma shr_1_nonneg (mrs : shr_record) : 0 <= shr_m mrs -> 0 <= shr_m (shr_1 mrs).
Proof.
  destruct mrs as [m r s]; simpl.
  destruct m as [|q|q]; simpl; intros H; try lia.
  destruct q; simpl; lia.
Qed.

Lemma iter_shr_1_nonneg (n : positive) :
  forall mrs, 0 <= shr_m mrs -> 0 <= shr_m (SpecFloat.iter_pos shr_1 n mrs).
Proof.
  induction n as [n IH|n IH|]; simpl; intros mrs H.
  - apply IH, IH, shr_1_nonneg, H.
  - apply IH, IH, H.
  - apply shr_1_nonneg, H.
Qed.

Lemma shr_fexp_nonneg (m e : Z) (l : location) :
  0 <= m -> 0 <= shr_m (shr_fexp prec emax m e l).1.
Proof.
  intros H. unfold shr_fexp, shr.
  assert (H0 : 0 <= shr_m (shr_record_of_loc m l))
    by (destruct l as [|[]]; simpl; exact H).
  destruct (fexp prec emax (Zdigits2 m + e) - e); simpl; try exact H0.
  apply iter_shr_1_nonneg, H0.
Qed.

Lemma round_nearest_even_nonneg (m : Z) (l : location) :
  0 <= m -> 0 <= round_nearest_even m l.
Proof.
  intros H. destruct l as [|[]]; simpl; try lia.
  destruct (Z.even m); lia.
Qed.

Lemma binary_round_aux_not_nan (sx : bool) (mx ex : Z) (lx : location) :
  0 <= mx -> is_nan (binary_round_aux prec emax sx mx ex lx) = false.
Proof.
  intros H. unfold binary_round_aux.
  pose proof (shr_fexp_nonneg mx ex lx H) as H1.
  destruct (shr_fexp prec emax mx ex lx) as [mrs' e']; simpl in H1.
  pose proof (shr_fexp_nonneg _ e' loc_Exact
                (round_nearest_even_nonneg _ (loc_of_shr_record mrs') H1)) as H2.
  destruct (shr_fexp prec emax _ e' loc_Exact) as [mrs'' e'']; simpl in H2.
  destruct (shr_m mrs'') as [|q|q]; try reflexivity; [|lia].
  destruct (e'' <=? emax - prec); reflexivity.
Qed.

Lemma binary_normalize_not_nan (m e : Z) (sz : bool) :
  is_nan (binary_normalize prec emax m e sz) = false.
Proof.
  destruct m as [|q|q]; simpl; try reflexivity; unfold binary_round;
    destruct (shl_align _ _ _) as [mz ez]; apply binary_round_aux_not_nan; lia.
Qed.

Lemma of_Z_not_nan (z : Z) : is_nan (of_Z z) = false.
Proof. apply binary_normalize_not_nan. Qed.

Lemma mul_finite_not_nan (x y : float) :
  is_finite x = true -> is_finite y = true -> is_nan (mul x y) = false.
Proof.
  destruct x as [sx|sx| |sx mx ex], y as [sy|sy| |sy my ey]; simpl;
    try discriminate; try reflexivity.
  intros _ _. apply binary_round_aux_not_nan. lia.
Qed.

Lemma add_finite_not_nan (x y : float) :
  is_nan x = false -> is_finite y = true -> is_nan (add x y) = false.
Proof.
  destruct x as [sx|sx| |sx mx ex], y as [sy|sy| |sy my ey]; simpl;
    try discriminate; try reflexivity.
  - destruct sx, sy; reflexivity.
  - intros _ _. apply binary_normalize_not_nan.
Qed.

(** The floor: on a number, [maximum x b] is at least [b]. *)
Lemma maximum_floor (x b : float) :
  is_nan x = false -> le b b = true -> ge (maximum x b) b = true.
Proof.
  intros Hx Hb. unfold maximum. rewrite Hx, orb_false_r.
  destruct (ge x b) eqn:E; [exact E | exact Hb].
Qed.

End F64Facts.

(** ** The array functions of numpy *)

Module NumpyFacts.
Import F64 Py Numpy F64Facts.

Section Draws.
Context {R : RandomState}.

Lemma draws_length {A} (step : rng -> A * rng) (n : nat) :
  forall g, length (draws step n g).1 = n.
Proof.
  induction n as [|n IH]; intros g; simpl; [reflexivity|].
  destruct (step g) as [x g1]. specialize (IH g1).
  destruct (draws step n g1) as [xs g2]. simpl in *. congruence.
Qed.

Lemma draws_Forall {A} (P : A -> Prop) (step : rng -> A * rng) :
  (forall g, P (step g).1) -> forall n g, Forall P (draws step n g).1.
Proof.
  intros HP n. induction n as [|n IH]; intros g; simpl; [constructor|].
  specialize (HP g). destruct (step g) as [x g1]. specialize (IH g1).
  destruct (draws step n g1) as [xs g2]. simpl in *. constructor; assumption.
Qed.

Lemma draws_over_length {A B} (step : A -> rng -> B * rng) (ps : list A) :
  forall g, length (draws_over step ps g).1 = length ps.
Proof.
  induction ps as [|p ps IH]; intros g; simpl; [reflexivity|].
  destruct (step p g) as [x g1]. specialize (IH g1).
  destruct (draws_over step ps g1) as [xs g2]. simpl in *. congruence.
Qed.

Lemma sized_run {A} (step : rng -> A * rng) (n : Z) (g : rng) :
  0 <= n ->
  sized step n g = (Ok (draws step (Z.to_nat n) g).1, (draws step (Z.to_nat n) g).2).
Proof.
  intros H. unfold sized.
  destruct (n <? 0) eqn:E; [lia|].
  destruct (draws step (Z.to_nat n) g); reflexivity.
Qed.

Lemma sized_neg {A} (step : rng -> A * rng) (n : Z) (g : rng) :
  n < 0 ->
  sized step n g = (Raise (Exn ValueError "negative dimensions are not allowed"), g).
Proof. intros H. unfold sized. destruct (n <? 0) eqn:E; [reflexivity|lia]. Qed.

Lemma randint_run (low high n : Z) (g : rng) :
  low < high -> 0 <= n ->
  randint low high n g =
    (Ok (draws (rng_randint low high) (Z.to_nat n) g).1,
     (draws (rng_randint low high) (Z.to_nat n) g).2).
Proof.
  intros H Hn. unfold randint. destruct (high <=? low) eqn:E; [lia|].
  apply sized_run, Hn.
Qed.

Lemma randint_neg (low high n : Z) (g : rng) :
  low < high -> n < 0 ->
  randint low high n g =
    (Raise (Exn ValueError "negative dimensions are not allowed"), g).
Proof.
  intros H Hn. unfold randint. destruct (high <=? low) eqn:E; [lia|].
  apply sized_neg, Hn.
Qed.

Lemma uniform_run (low high : float) (n : Z) (g : rng) :
  0 <= n ->
  uniform low high n g =
    (Ok (draws (rng_uniform low high) (Z.to_nat n) g).1,
     (draws (rng_uniform low high) (Z.to_nat n) g).2).
Proof. apply sized_run. Qed.

Lemma normal_run (loc scale : float) (n : Z) (g : rng) :
  lt scale (of_Z 0) = false -> 0 <= n ->
  normal loc scale n g =
    (Ok (draws (rng_normal loc scale) (Z.to_nat n) g).1,
     (draws (rng_normal loc scale) (Z.to_nat n) g).2).
Proof. intros H Hn. unfold normal. rewrite H. apply sized_run, Hn. Qed.

Lemma choice_run (a : list Z) (p : list float) (n : Z) (g : rng) :
  choice_check a p = None -> 0 <= n ->
  choice a n p g =
    (Ok (draws (rng_choice a p) (Z.to_nat n) g).1,
     (draws (rng_choice a p) (Z.to_nat n) g).2).
Proof. intros H Hn. unfold choice. rewrite H. apply sized_run, Hn. Qed.

Lemma binomial_run (n : Z) (p : list float) (g : rng) :
  binomial_check n p = None ->
  binomial n p g =
    (Ok (draws_over (rng_binomial n) p g).1, (draws_over (rng_binomial n) p g).2).
Proof.
  intros H. unfold binomial. rewrite H.
  destruct (draws_over (rng_binomial n) p g); reflexivity.
Qed.

End Draws.

(** Element-wise reasoning on arrays. *)
Lemma Forall_zip_with_elems {A B C} (f : A -> B -> C)
    (P : A -> Prop) (Q : B -> Prop) (T : C -> Prop) :
  (forall x y, P x -> Q y -> T (f x y)) ->
  forall l1 l2, Forall P l1 -> Forall Q l2 -> Forall T (zip_with f l1 l2).
Proof.
  intros Hf l1. induction l1 as [|x l1 IH]; intros l2 H1 H2; simpl; [constructor|].
  destruct l2 as [|y l2]; [constructor|].
  inversion H1; inversion H2; subst. constructor; auto.
Qed.

End NumpyFacts.

(** ** The two data synthesizers *)

Module SynthFacts.
Import F64 Py Numpy F64Facts NumpyFacts.

(** Tenures convert to binary64 exactly. *)
Lemma of_Z_tenure_finite (t : Z) : 1 <= t < 73 -> is_finite (of_Z t) = true.
Proof.
  intros H.
  assert (A : forallb (fun k => is_finite (of_Z (Z.of_nat k))) (seq 1 72) = true)
    by (vm_compute; reflexivity).
  rewrite forallb_forall in A.
  replace t with (Z.of_nat (Z.to_nat t)) by lia.
  apply A, in_seq. lia.
Qed.

(** *** The churn probability is always a probability *)

Import Churn.

Lemma scaled_in (c : float) (mask : list bool) :
  Forall (fun x => In x (both c)) (Churn.scaled c mask).
Proof.
  unfold Churn.scaled. apply Forall_fmap, Forall_forall. intros b _.
  unfold both. destruct b; [left|right; left]; reflexivity.
Qed.

Lemma zip_add_in (A B l1 l2 : list float) :
  Forall (fun x => In x A) l1 -> Forall (fun x => In x B) l2 ->
  Forall (fun x => In x (sums A B)) (zip_with add l1 l2).
Proof.
  apply Forall_zip_with_elems. intros x y Hx Hy. unfold sums.
  apply in_flat_map. exists x. split; [exact Hx|]. apply in_map, Hy.
Qed.

Lemma formula_reachable (t c p : list Z) (m : list float) (a ts i : list Z) :
  Forall (fun x => In x reachable) (Churn.churn_probability_formula t c p m a ts i).
Proof.
  unfold Churn.churn_probability_formula, reachable.
  do 6 (apply zip_add_in; [|apply scaled_in]).
  apply Forall_fmap. eapply Forall_impl; [apply scaled_in|].
  intros x Hx. cbv beta. apply (in_map (add f0_1)), Hx.
Qed.

Lemma reachable_valid :
  forallb (fun p => valid_p (clip p (of_Z 0) (of_Z 1))) reachable = true.
Proof. vm_compute. reflexivity. Qed.

Lemma formula_valid (t c p : list Z) (m : list float) (a ts i : list Z) :
  forallb valid_p
    ((fun p => clip p (of_Z 0) (of_Z 1)) <$>
       Churn.churn_probability_formula t c p m a ts i) = true.
Proof.
  apply forallb_forall. intros x Hx. apply in_map_iff in Hx as (y & <- & Hy).
  pose proof (formula_reachable t c p m a ts i) as H.
  rewrite Forall_forall in H.
  pose proof reachable_valid as V. rewrite forallb_forall in V.
  apply V, H, list_elem_of_In, Hy.
Qed.

Lemma formula_length (k : nat) (t c p : list Z) (m : list float) (a ts i : list Z) :
  length t = k -> length c = k -> length p = k -> length m = k ->
  length a = k -> length ts = k -> length i = k ->
  length (Churn.churn_probability_formula t c p m a ts i) = k.
Proof.
  intros. unfold Churn.churn_probability_formula, Churn.scaled.
  rewrite !length_zip_with, !length_fmap. lia.
Qed.

Lemma choice_checks :
  choice_check [0; 1; 2] [f0_5; f0_3; f0_2] = None /\
  choice_check [0; 1; 2; 3] [f0_4; f0_2; f0_2; f0_2] = None /\
  choice_check [0; 1; 2] [f0_4; f0_4; f0_2] = None /\
  choice_check [0; 1] [f0_6; f0_4] = None.
Proof. vm_compute. repeat split. Qed.

Section Runs.
Context {R : RandomState}.

(** *** The churn synthesizer *)

Lemma generate_synthetic_data_run (n : Z) (g : rng) :
  0 <= n ->
  exists df g', Churn.generate_synthetic_data n g = (Ok df, g') /\
    Churn.nrows df = Z.to_nat n /\
    length (Churn.col_total_charges df) = Z.to_nat n /\
    length (Churn.col_churn df) = Z.to_nat n /\
    (RandomStateLaws R ->
     Forall (fun x => ge x (of_Z 20) = true) (Churn.col_total_charges df)).
Proof.
  intros Hn. destruct choice_checks as (C1 & C2 & C3 & C4).
  unfold Churn.generate_synthetic_data.
  next. unfold seed, put. cbv beta iota.
  next. rewrite randint_run by lia. cbv beta iota.
  next. rewrite randint_run by lia. cbv beta iota.
  next. rewrite uniform_run by lia. cbv beta iota.
  next. rewrite normal_run; [|vm_compute; reflexivity|lia]. cbv beta iota zeta.
  next. rewrite (choice_run _ _ _ _ C1) by lia. cbv beta iota.
  next. rewrite (choice_run _ _ _ _ C2) by lia. cbv beta iota.
  next. rewrite (choice_run _ _ _ _ C3) by lia. cbv beta iota.
  next. rewrite (choice_run _ _ _ _ C4) by lia. cbv beta iota.
  next. rewrite binomial_run.
  2:{ unfold binomial_check. rewrite formula_valid. reflexivity. }
  cbv beta iota. unfold ret.
  eexists _, _. split; [reflexivity|].
  unfold Churn.nrows.
  cbn [Churn.col_age Churn.col_total_charges Churn.col_churn].
  split; [apply draws_length|].
  split; [rewrite length_fmap, !length_zip_with, length_fmap, !draws_length; lia|].
  split.
  { rewrite draws_over_length, length_fmap.
    apply formula_length; apply draws_length. }
  intros L. apply Forall_fmap.
  eapply Forall_impl with (P := fun x => is_nan x = false).
  2:{ intros x Hx. cbv beta. apply maximum_floor; [exact Hx|vm_compute; reflexivity]. }
  apply Forall_zip_with_elems
    with (P := fun x => is_nan x = false) (Q := fun x => is_finite x = true).
  { intros x y. apply add_finite_not_nan. }
  - apply Forall_zip_with_elems
      with (P := fun x => is_finite x = true) (Q := fun x => is_finite x = true).
    { intros x y. apply mul_finite_not_nan. }
    + apply draws_Forall. intros g0.
      apply uniform_finite; vm_compute; reflexivity.
    + apply Forall_fmap.
      apply (draws_Forall (fun t => is_finite (of_Z t) = true)). intros g0.
      apply of_Z_tenure_finite, randint_range. lia.
  - apply draws_Forall. intros g0.
    apply normal_finite; vm_compute; reflexivity.
Qed.

Lemma generate_synthetic_data_negative (n : Z) (g : rng) :
  n < 0 ->
  Churn.generate_synthetic_data n g =
    (Raise (Exn ValueError "negative dimensions are not allowed"), rng_seed 42).
Proof.
  intros Hn. unfold Churn.generate_synthetic_data.
  next. unfold seed, put. cbv beta iota.
  next. rewrite randint_neg by lia. reflexivity.
Qed.

(** *** The price synthesizer *)

Lemma price_without_noise_length (k : nat) (b ba s a : list Z) :
  length b = k -> length ba = k -> length s = k -> length a = k ->
  length (House.price_without_noise b ba s a) = k.
Proof.
  intros. unfold House.price_without_noise.
  rewrite !length_zip_with, !length_fmap. lia.
Qed.

Lemma generate_sample_data_run (n : Z) (g : rng) :
  0 <= n ->
  exists df g', House.generate_sample_data n g = (Ok df, g') /\
    House.nrows df = Z.to_nat n /\
    length (House.col_price df) = Z.to_nat n /\
    (RandomStateLaws R ->
     Forall (fun x => ge x (of_Z 50000) = true) (House.col_price df)).
Proof.
  intros Hn. unfold House.generate_sample_data.
  next. unfold seed, put. cbv beta iota.
  next. rewrite randint_run by lia. cbv beta iota.
  next. rewrite randint_run by lia. cbv beta iota.
  next. rewrite randint_run by lia. cbv beta iota.
  next. rewrite randint_run by lia. cbv beta iota.
  next. rewrite normal_run; [|vm_compute; reflexivity|lia]. cbv beta iota zeta.
  unfold ret.
  eexists _, _. split; [reflexivity|].
  unfold House.nrows. cbn [House.col_bedrooms House.col_price].
  split; [apply draws_length|].
  split.
  { rewrite length_fmap, length_zip_with, length_fmap, draws_length.
    rewrite (price_without_noise_length (Z.to_nat n)) by apply draws_length. lia. }
  intros L. apply Forall_fmap.
  eapply Forall_impl with (P := fun x => is_nan x = false).
  2:{ intros x Hx. cbv beta. apply maximum_floor; [exact Hx|vm_compute; reflexivity]. }
  apply Forall_zip_with_elems
    with (P := fun x => is_nan x = false) (Q := fun x => is_finite x = true).
  { intros x y. apply add_finite_not_nan. }
  - apply Forall_fmap, Forall_forall. intros z _. apply of_Z_not_nan.
  - apply draws_Forall. intros g0.
    apply normal_finite; vm_compute; reflexivity.
Qed.

Lemma generate_sample_data_negative (n : Z) (g : rng) :
  n < 0 ->
  House.generate_sample_data n g =
    (Raise (Exn ValueError "negative dimensions are not allowed"), rng_seed 42).
Proof.
  intros Hn. unfold House.generate_sample_data.
  next. unfold seed, put. cbv beta iota.
  next. rewrite randint_neg by lia. reflexivity.
Qed.

End Runs.

(** The stand-in generator obeys the library's laws. *)
Lemma lcg_laws : RandomStateLaws Examples.lcg.
Proof.
  split.
  - intros low high g H. cbn.
    pose proof (Z.mod_pos_bound g (high - low)). lia.
  - intros low high g Hl Hh. exact Hl.
  - intros loc scale g _ _. cbn. destruct (Z.even g); reflexivity.
Qed.

End SynthFacts.

Module SynthTheorems.
Import F64 Py Numpy F64Facts NumpyFacts SynthFacts Examples.

(** C4, as the code has it: the synthesizers validate nothing themselves.
    A negative [n] is refused by the first array draw with a [ValueError];
    every [n >= 0], zero included, yields a dataset of [n] rows, and no
    other statement of either synthesizer raises. *)
Theorem generate_rejects_only_negative `{R : RandomState} (n : Z) (g : rng) :
  (n < 0 ->
     Churn.generate_synthetic_data n g =
       (Raise (Exn ValueError "negative dimensions are not allowed"), rng_seed 42) /\
     House.generate_sample_data n g =
       (Raise (Exn ValueError "negative dimensions are not allowed"), rng_seed 42)) /\
  (0 <= n ->
     (exists df g', Churn.generate_synthetic_data n g = (Ok df, g') /\
                    Churn.nrows df = Z.to_nat n) /\
     (exists df g', House.generate_sample_data n g = (Ok df, g') /\
                    House.nrows df = Z.to_nat n)).
Proof.
  split; intros Hn.
  - split; [apply generate_synthetic_data_negative | apply generate_sample_data_negative];
      exact Hn.
  - split.
    + destruct (generate_synthetic_data_run n g Hn) as (df & g' & E & N & _).
      exists df, g'. split; assumption.
    + destruct (generate_sample_data_run n g Hn) as (df & g' & E & N & _).
      exists df, g'. split; assumption.
Qed.

Lemma generate_rejects_only_negative_witness :
  (-1 < 0 /\
   Churn.generate_synthetic_data (R := lcg) (-1) 7 =
     (Raise (Exn ValueError "negative dimensions are not allowed"), 42)) /\
  (0 <= 2 /\
   exists df g', House.generate_sample_data (R := lcg) 2 7 = (Ok df, g') /\
                 House.nrows df = 2%nat).
Proof.
  split.
  - split; [lia|].
    exact (proj1 (proj1 (generate_rejects_only_negative (R := lcg) (-1) 7) ltac:(lia))).
  - split; [lia|].
    exact (proj2 (proj2 (generate_rejects_only_negative (R := lcg) 2 7) ltac:(lia))).
Defined.

(** C4 as stated fails at [n = 0]: both synthesizers return an empty
    dataset instead of rejecting the call. *)
Lemma generate_accepts_zero :
  0 <= 0 /\
  Churn.generate_synthetic_data (R := lcg) 0 7 =
    (Ok (Churn.DataFrame [] [] [] [] [] [] [] [] []), 42) /\
  House.generate_sample_data (R := lcg) 0 7 =
    (Ok (House.DataFrame [] [] [] [] []), 42).
Proof. split; [lia|]. split; vm_compute; reflexivity. Qed.

(** C5: whatever the generator draws, every price of the price
    synthesizer is at least 50000 and every [total_charges] of the churn
    synthesizer is at least 20. *)
Theorem synthesizer_floors `{R : RandomState} (L : RandomStateLaws R)
    (n : Z) (g : rng) :
  0 < n ->
  (exists df g', House.generate_sample_data n g = (Ok df, g') /\
     length (House.col_price df) = Z.to_nat n /\
     Forall (fun price => ge price (of_Z 50000) = true) (House.col_price df)) /\
  (exists df g', Churn.generate_synthetic_data n g = (Ok df, g') /\
     length (Churn.col_total_charges df) = Z.to_nat n /\
     Forall (fun total => ge total (of_Z 20) = true) (Churn.col_total_charges df)).
Proof.
  intros Hn. split.
  - destruct (generate_sample_data_run n g ltac:(lia)) as (df & g' & E & _ & N & F).
    exists df, g'. auto.
  - destruct (generate_synthetic_data_run n g ltac:(lia)) as (df & g' & E & _ & N & _ & F).
    exists df, g'. auto.
Qed.

Lemma synthesizer_floors_witness :
  0 < 3 /\
  (exists df g', House.generate_sample_data (R := lcg) 3 0 = (Ok df, g') /\
     length (House.col_price df) = 3%nat /\
     Forall (fun price => ge price (of_Z 50000) = true) (House.col_price df)) /\
  (exists df g', Churn.generate_synthetic_data (R := lcg) 3 0 = (Ok df, g') /\
     length (Churn.col_total_charges df) = 3%nat /\
     Forall (fun total => ge total (of_Z 20) = true) (Churn.col_total_charges df)).
Proof.
  split; [lia|].
  exact (synthesizer_floors (R := lcg) lcg_laws 3 0 ltac:(lia)).
Defined.

(** C6: a synthesizer reseeds the process-wide generator before it draws,
    so its dataset (and the generator state it leaves) does not depend on
    the state it finds: two calls with the same [n] agree, whether they
    start from unrelated states or run one after the other. *)
Theorem generate_deterministic `{R : RandomState} (n : Z) (g1 g2 : rng) :
  Churn.generate_synthetic_data n g1 = Churn.generate_synthetic_data n g2 /\
  House.generate_sample_data n g1 = House.generate_sample_data n g2 /\
  Churn.generate_synthetic_data n (Churn.generate_synthetic_data n g1).2 =
    Churn.generate_synthetic_data n g1 /\
  House.generate_sample_data n (House.generate_sample_data n g1).2 =
    House.generate_sample_data n g1.
Proof.
  assert (C : forall g g', Churn.generate_synthetic_data n g =
                           Churn.generate_synthetic_data n g').
  { intros g g'. unfold Churn.generate_synthetic_data, bind at 1, seed, put.
    reflexivity. }
  assert (H : forall g g', House.generate_sample_data n g =
                           House.generate_sample_data n g').
  { intros g g'. unfold House.generate_sample_data, bind at 1, seed, put.
    reflexivity. }
  split; [apply C|]. split; [apply H|]. split; [apply C | apply H].
Qed.

End SynthTheorems.

(** ** The predictor *)

Module PredictFacts.
Import F64 Py F64Facts Churn.

Lemma dict_get_None (d : pydict) (k : string) :
  dict_get d k = None <-> k ∉ keys d.
Proof.
  unfold keys. induction d as [|[k' v] d IH]; simpl.
  - split; [intros _; apply not_elem_of_nil | reflexivity].
  - destruct (decide (k' = k)) as [->|Hne].
    + split; [discriminate|]. intros H. exfalso. apply H. left.
    + rewrite IH, not_elem_of_cons. split; [intros H; split; [congruence|exact H]|tauto].
Qed.

Lemma dict_get_Some_elem (d : pydict) (k : string) (v : pyval) :
  NoDup (keys d) -> dict_get d k = Some v <-> (k, v) ∈ d.
Proof.
  unfold keys. induction d as [|[k' v'] d IH]; simpl; intros ND.
  - split; [discriminate|]. intros H. inversion H.
  - apply NoDup_cons in ND as [Hk ND]. rewrite elem_of_cons.
    destruct (decide (k' = k)) as [->|Hne].
    + split.
      * intros [= ->]. left. reflexivity.
      * intros [[= ->]|Hin]; [reflexivity|].
        exfalso. apply Hk. apply (list_elem_of_fmap_2 fst) in Hin. exact Hin.
    + rewrite (IH ND). split; [tauto|]. intros [[= -> ->]|H]; [congruence|exact H].
Qed.

(** Reordering the items of a dict does not change what a key maps to. *)
Lemma dict_get_Permutation (d1 d2 : pydict) (k : string) :
  NoDup (keys d1) -> d1 ≡ₚ d2 -> dict_get d1 k = dict_get d2 k.
Proof.
  intros ND HP.
  assert (ND2 : NoDup (keys d2)) by (unfold keys in *; rewrite <- HP; exact ND).
  destruct (dict_get d1 k) as [v|] eqn:E.
  - symmetry. apply (dict_get_Some_elem d2 k v ND2).
    rewrite <- HP. apply (dict_get_Some_elem d1 k v ND), E.
  - symmetry. apply dict_get_None. apply dict_get_None in E.
    unfold keys in *. rewrite <- HP. exact E.
Qed.

(** Dropping the items whose key is outside [names] keeps the rest. *)
Lemma dict_get_filter (names : list string) (d : pydict) (k : string) :
  k ∈ names ->
  dict_get (filter (fun kv => kv.1 ∈ names) d) k = dict_get d k.
Proof.
  intros Hk. induction d as [|[k' v] d IH]; [reflexivity|].
  rewrite filter_cons. simpl.
  destruct (decide (k' ∈ names)) as [Hin|Hnin]; simpl.
  - destruct (decide (k' = k)); [reflexivity|exact IH].
  - destruct (decide (k' = k)) as [->|]; [contradiction|exact IH].
Qed.

Lemma filter_ext_in {A} (P Q : A -> Prop) `{!forall x, Decision (P x)}
    `{!forall x, Decision (Q x)} (l : list A) :
  (forall x, x ∈ l -> (P x <-> Q x)) -> filter P l = filter Q l.
Proof.
  induction l as [|x l IH]; intros HPQl; [reflexivity|].
  rewrite !filter_cons.
  assert (HPQ : P x <-> Q x) by (apply HPQl; left).
  rewrite IH by (intros y Hy; apply HPQl; right; exact Hy).
  destruct (decide (P x)), (decide (Q x)); tauto.
Qed.

Lemma omap_ext_in {A B} (f g : A -> option B) (l : list A) :
  (forall x, x ∈ l -> f x = g x) -> omap f l = omap g l.
Proof.
  induction l as [|x l IH]; intros Hfg; [reflexivity|]. cbn.
  rewrite (Hfg x) by left.
  assert (E : omap f l = omap g l)
    by (apply IH; intros y Hy; apply Hfg; right; exact Hy).
  destruct (g x); [f_equal|]; exact E.
Qed.

Section Predictor.
Context {Pd : Pandas}.

(** Column selection looks at the frame only through the selected names. *)
Lemma select_columns_ext (names : list string) (df1 df2 : frame) :
  (forall n, n ∈ names -> dict_get df1 n = dict_get df2 n) ->
  select_columns df1 names = select_columns df2 names.
Proof.
  intros H. unfold select_columns.
  rewrite (filter_ext_in (fun n => n ∉ keys df1) (fun n => n ∉ keys df2)).
  2:{ intros n Hn. rewrite <- !dict_get_None, (H n Hn). reflexivity. }
  rewrite (omap_ext_in (fun n => pair n <$> dict_get df1 n)
                       (fun n => pair n <$> dict_get df2 n)).
  2:{ intros n Hn. rewrite (H n Hn). reflexivity. }
  reflexivity.
Qed.

Lemma predict_churn_ext (model : Model) (info : model_info) (d1 d2 : pydict) :
  (forall n, n ∈ feature_names info -> dict_get d1 n = dict_get d2 n) ->
  predict_churn model info d1 = predict_churn model info d2.
Proof.
  intros H. unfold predict_churn, predict_churn_body, DataFrame_of.
  rewrite (select_columns_ext _ d1 d2 H). reflexivity.
Qed.

Lemma test_sample_prediction_ext (model : Model) (cols : list string) (d1 d2 : pydict) :
  (forall n, n ∈ cols -> dict_get d1 n = dict_get d2 n) ->
  test_sample_prediction model cols d1 = test_sample_prediction model cols d2.
Proof.
  intros H. unfold test_sample_prediction, DataFrame_of.
  rewrite (select_columns_ext _ d1 d2 H). reflexivity.
Qed.

(** The source rule and the rule in the specification's words agree. *)
Lemma risk_level_refines (p : float) : risk_level p = risk_level_spec p.
Proof.
  unfold risk_level, risk_level_spec.
  destruct (gt p f0_7) eqn:E7; [reflexivity|].
  change (lt f0_3 p) with (gt p f0_3).
  destruct (gt p f0_3) eqn:E3; [|reflexivity].
  destruct (gt_not_nan _ _ E3) as [Np _].
  rewrite (not_gt_le p f0_7 Np eq_refl E7). reflexivity.
Qed.

(** What the [try] block returns when nothing raises. *)
Lemma predict_churn_body_Ok (model : Model) (info : model_info)
    (data r : pydict) :
  predict_churn_body model info data = Ok r ->
  exists prediction p q,
    r = [ ("prediction", VInt prediction);
          ("churn_probability", VFloat p);
          ("no_churn_probability", VFloat q);
          ("risk_level", VStr (risk_level p));
          ("prediction_label", VStr (if prediction =? 1 then "Churn" else "No Churn")) ].
Proof.
  unfold predict_churn_body, rbind.
  destruct (select_columns _ _) as [df|e]; [|discriminate].
  destruct (predict model df) as [ps|e]; [|discriminate].
  destruct (getitem ps 0) as [prediction|e]; [|discriminate].
  destruct (predict_proba model df) as [pp|e]; [|discriminate].
  destruct (getitem pp 0) as [row|e]; [|discriminate].
  destruct (getitem row 1) as [p|e]; [|discriminate].
  destruct (getitem row 0) as [q|e]; [|discriminate].
  intros [= <-]. exists prediction, p, q. reflexivity.
Qed.

(** An exception of the [try] block that is not an [Exception] was
    raised by one of the two calls into the model: the selection raises
    [KeyError] and the indexing [IndexError]. *)
Lemma predict_churn_body_Raise (model : Model) (info : model_info)
    (data : pydict) (e : exn) :
  predict_churn_body model info data = Raise e ->
  Exception (exn_cls e) = false ->
  exists df, predict model df = Raise e \/ predict_proba model df = Raise e.
Proof.
  unfold predict_churn_body, rbind, select_columns, getitem, index_error.
  destruct (filter _ _) as [|m ms]; [|intros [= <-]; discriminate].
  set (df := omap _ _).
  destruct (predict model df) as [ps|e0] eqn:Ep.
  2:{ intros [= <-] _. exists df. left. exact Ep. }
  destruct (ps !! 0%nat) as [prediction|]; [|intros [= <-]; discriminate].
  destruct (predict_proba model df) as [pp|e0] eqn:Epp.
  2:{ intros [= <-] _. exists df. right. exact Epp. }
  destruct (pp !! 0%nat) as [row|]; [|intros [= <-]; discriminate].
  destruct (row !! 1%nat) as [p|]; [|intros [= <-]; discriminate].
  destruct (row !! 0%nat) as [q|]; [|intros [= <-]; discriminate].
  discriminate.
Qed.

End Predictor.

(** The boundary probabilities of the thresholds, and their upper
    neighbours 0.70001 and 0.30001. *)
Example risk_level_boundaries :
  risk_level f0_7 = "Medium" /\
  risk_level (S754_finite false 6305129550311242 (-53)) = "High" /\
  risk_level f0_3 = "Low" /\
  risk_level (S754_finite false 5404499696829690 (-54)) = "Medium" /\
  risk_level S754_nan = "Low".
Proof. repeat split. Qed.

(** The regressor script passes its features by position: nothing
    reorders them, so their order is part of the input. *)
Example regressor_input_is_positional :
  House.test_prediction Examples.by_sqft [VInt 3; VInt 2; VInt 1500; VInt 10]
    = Ok (of_Z 150000) /\
  House.test_prediction Examples.by_sqft [VInt 1500; VInt 3; VInt 2; VInt 10]
    = Ok (of_Z 200).
Proof. split; vm_compute; reflexivity. Qed.

End PredictFacts.

Module PredictTheorems.
Import F64 Py F64Facts Churn PredictFacts Examples.

(** C1: the risk label is fixed by the thresholds on the positive-class
    probability: "High" above 0.7, "Medium" above 0.3 and up to 0.7, "Low"
    otherwise (a NaN included); 0.7 itself is "Medium" and 0.3 itself is
    "Low".  The conditional expression of the training script is the same
    rule, and the record of every successful prediction carries the label
    of its own [churn_probability]. *)
Theorem risk_level_thresholds `{Pd : Pandas} (p : float) :
  risk_level p = risk_level_spec p /\
  risk_level_inline p = risk_level_spec p /\
  risk_level f0_7 = "Medium" /\ risk_level f0_3 = "Low" /\
  (forall model info data,
     match predict_churn_body model info data with
     | Ok r =>
         exists q, dict_get r "churn_probability" = Some (VFloat q) /\
                   dict_get r "risk_level" = Some (VStr (risk_level_spec q))
     | Raise _ => True
     end).
Proof.
  split; [apply risk_level_refines|].
  split; [apply risk_level_refines|].
  split; [reflexivity|]. split; [reflexivity|].
  intros model info data.
  destruct (predict_churn_body model info data) as [r|e] eqn:E; [|exact I].
  apply predict_churn_body_Ok in E as (prediction & q & q0 & ->).
  exists q. split; [reflexivity|]. rewrite <- risk_level_refines. reflexivity.
Qed.

(** C10, as the code has it: [predict_churn] returns a dictionary
    whenever its [try] block completes or raises an exception of class
    [Exception].  When the block succeeds the dictionary is its record,
    with exactly the five result keys; when a step of the block raises
    an [Exception], the dictionary has the single key [error] holding the
    text of the exception.  An exception outside [Exception]
    ([KeyboardInterrupt], [SystemExit]) is not caught: it leaves
    [predict_churn] as it was raised, and only the two calls into the
    model can raise one. *)
Theorem predict_churn_catches_exceptions `{Pd : Pandas}
    (model : Model) (info : model_info) (customer_data : pydict) :
  match predict_churn_body model info customer_data with
  | Ok d =>
      predict_churn model info customer_data = Ok d /\
      keys d = ["prediction"; "churn_probability"; "no_churn_probability";
                "risk_level"; "prediction_label"]
  | Raise e =>
      if Exception (exn_cls e)
      then predict_churn model info customer_data = Ok [("error", VStr (exn_str e))]
      else predict_churn model info customer_data = Raise e /\
           exists df, predict model df = Raise e \/ predict_proba model df = Raise e
  end.
Proof.
  unfold predict_churn, pure_try.
  destruct (predict_churn_body model info customer_data) as [r|e] eqn:E.
  - split; [reflexivity|].
    apply predict_churn_body_Ok in E as (prediction & p & q & ->). reflexivity.
  - destruct (Exception (exn_cls e)) eqn:Ex; [reflexivity|].
    split; [reflexivity|]. exact (predict_churn_body_Raise _ _ _ _ E Ex).
Qed.

(** C10 as stated fails: an interrupt from the keyboard that arrives
    while the model is predicting is not an [Exception]; it passes
    through the handler and out of [predict_churn]. *)
Lemma keyboard_interrupt_not_caught :
  predict_churn (Pd := plain_pandas) interrupted churn_info high_risk =
    Raise (Exn KeyboardInterrupt "").
Proof. vm_compute. reflexivity. Qed.

(** C9: the prediction does not depend on the order in which the items of
    the feature mapping are given.  The same holds for the sample
    predictions of the training script. *)
Theorem predict_churn_order_independent `{Pd : Pandas}
    (model : Model) (info : model_info) (d1 d2 : pydict) :
  NoDup (keys d1) -> d1 ≡ₚ d2 ->
  predict_churn model info d1 = predict_churn model info d2 /\
  (forall cols, test_sample_prediction model cols d1 =
                test_sample_prediction model cols d2).
Proof.
  intros ND HP. split.
  - apply predict_churn_ext. intros n _. apply dict_get_Permutation; assumption.
  - intros cols. apply test_sample_prediction_ext. intros n _.
    apply dict_get_Permutation; assumption.
Qed.

Lemma predict_churn_order_independent_witness :
  NoDup (keys high_risk) /\ high_risk ≡ₚ high_risk_shuffled /\
  predict_churn (Pd := plain_pandas) by_tenure churn_info high_risk =
    predict_churn (Pd := plain_pandas) by_tenure churn_info high_risk_shuffled.
Proof.
  assert (ND : NoDup (keys high_risk))
    by (apply (bool_decide_unpack _); vm_compute; exact I).
  assert (HP : high_risk ≡ₚ high_risk_shuffled)
    by (apply (bool_decide_unpack _); vm_compute; exact I).
  split; [exact ND|]. split; [exact HP|].
  exact (proj1 (predict_churn_order_independent (Pd := plain_pandas)
                  by_tenure churn_info high_risk high_risk_shuffled ND HP)).
Defined.

(** C2, as the code has it: column selection is the only schema check.
    Names outside the trained schema are dropped without a word, so the
    result is that of the mapping restricted to the schema; a schema name
    missing from the mapping makes pandas raise [KeyError], which
    [predict_churn] turns into the [error] dictionary holding the text
    pandas gave that exception for the missing names. *)
Theorem predict_churn_schema `{Pd : Pandas} (model : Model) (info : model_info)
    (customer_data : pydict) :
  predict_churn model info customer_data =
    predict_churn model info
      (filter (fun kv => kv.1 ∈ feature_names info) customer_data) /\
  ((exists n, n ∈ feature_names info /\ n ∉ keys customer_data) ->
   predict_churn_body model info customer_data =
     Raise (Exn KeyError
              (missing_message (feature_names info)
                 (filter (fun n => n ∉ keys customer_data) (feature_names info)))) /\
   predict_churn model info customer_data =
     Ok [("error",
          VStr (missing_message (feature_names info)
                  (filter (fun n => n ∉ keys customer_data) (feature_names info))))]).
Proof.
  split.
  - apply predict_churn_ext. intros n Hn. symmetry. apply dict_get_filter, Hn.
  - intros (n & Hn & Hmiss).
    unfold predict_churn, predict_churn_body, DataFrame_of, select_columns.
    assert (Hin : n ∈ filter (fun n => n ∉ keys customer_data) (feature_names info))
      by (apply list_elem_of_filter; split; assumption).
    destruct (filter (fun n => n ∉ keys customer_data) (feature_names info))
      as [|m ms]; [inversion Hin|].
    split; reflexivity.
Qed.

Lemma predict_churn_schema_witness :
  (exists n, n ∈ feature_names churn_info /\ n ∉ keys [("age", VInt 40)]) /\
  exists msg, predict_churn (Pd := plain_pandas) by_tenure churn_info [("age", VInt 40)] =
                Ok [("error", VStr msg)].
Proof.
  assert (H : exists n, n ∈ feature_names churn_info /\ n ∉ keys [("age", VInt 40)]).
  { exists "tenure". split; apply (bool_decide_unpack _); vm_compute; exact I. }
  split; [exact H|].
  eexists.
  exact (proj2 (proj2 (predict_churn_schema (Pd := plain_pandas)
                         by_tenure churn_info _) H)).
Defined.

(** C2 as stated fails: a mapping with names outside the schema (here
    everything but [tenure]) is answered with a prediction, not refused. *)
Lemma extra_feature_not_rejected :
  (exists n, n ∈ keys high_risk /\ n ∉ feature_names tenure_only) /\
  predict_churn (Pd := plain_pandas) by_tenure tenure_only high_risk =
    Ok [ ("prediction", VInt 1);
         ("churn_probability", VFloat f0_8);
         ("no_churn_probability", VFloat f0_2);
         ("risk_level", VStr "High");
         ("prediction_label", VStr "Churn") ].
Proof.
  split.
  - exists "age". split; apply (bool_decide_unpack _); vm_compute; exact I.
  - vm_compute. reflexivity.
Qed.

End PredictTheorems.

(** ** Artifacts: saving and loading *)

Module ArtifactFacts.
Import F64 Py Disk Examples.

Lemma write_file_run {O} (obj : O) (path : string) (w : world O) :
  write_file obj path w =
    if bool_decide (path ∈ readonly w)
    then (Raise (Exn PermissionError
                   ("[Errno 13] Permission denied: '" +:+ path +:+ "'")), w)
    else (Ok tt, World (<[path := obj]> (files w)) (readonly w) (stdout w)).
Proof. reflexivity. Qed.

(** The three ways the end of the churn [train_model] can go. *)
Lemma churn_save_run (model : Churn.Model) (acc : float)
    (imp : list (string * float)) (w : world Churn.obj) :
  Churn.train_model_save model acc imp w =
    let info := Churn.ModelInfo Churn.feature_columns "RandomForestClassifier" acc imp in
    let line1 := nl +:+ "💾 Model saved to: " +:+ Churn.model_file in
    let files1 := <[Churn.model_file := Churn.ObjModel model]> (files w) in
    if bool_decide (Churn.model_file ∈ readonly w)
    then (Raise (Exn PermissionError
                   ("[Errno 13] Permission denied: '" +:+ Churn.model_file +:+ "'")), w)
    else if bool_decide (Churn.info_file ∈ readonly w)
    then (Raise (Exn PermissionError
                   ("[Errno 13] Permission denied: '" +:+ Churn.info_file +:+ "'")),
          World files1 (readonly w) (stdout w ++ [line1]))
    else (Ok tt,
          World (<[Churn.info_file := Churn.ObjInfo info]> files1) (readonly w)
            ((stdout w ++ [line1]) ++ ["📋 Model info saved to: model_info.pkl"])).
Proof.
  unfold Churn.train_model_save, bind, joblib_dump, print.
  rewrite write_file_run.
  destruct (bool_decide (Churn.model_file ∈ readonly w)); [reflexivity|].
  cbv beta iota zeta. rewrite write_file_run. cbn [readonly files stdout].
  destruct (bool_decide (Churn.info_file ∈ readonly w)); reflexivity.
Qed.

Lemma house_save_run (model : House.Model) (r2 mse : float) (w : world House.obj) :
  House.train_model_save model r2 mse w =
    let info :=
      House.ModelInfo "LinearRegression" House.feature_list
        [ ("bedrooms", "Number of bedrooms (1-5)");
          ("bathrooms", "Number of bathrooms (1-3)");
          ("sqft", "Square footage (800-4000)");
          ("age", "Age of house in years (0-50)") ]
        "price" "House price in USD"
        (House.Performance r2 (SFsqrt prec emax mse))
        [ ("bedrooms", 3); ("bathrooms", 2); ("sqft", 1500); ("age", 10) ] in
    let line1 := nl +:+ "💾 Model saved as: " +:+ House.model_file in
    let files1 := <[House.model_file := House.ObjModel model]> (files w) in
    if bool_decide (House.model_file ∈ readonly w)
    then (Raise (Exn PermissionError
                   ("[Errno 13] Permission denied: '" +:+ House.model_file +:+ "'")), w)
    else if bool_decide (House.info_file ∈ readonly w)
    then (Raise (Exn PermissionError
                   ("[Errno 13] Permission denied: '" +:+ House.info_file +:+ "'")),
          World files1 (readonly w) (stdout w ++ [line1]))
    else (Ok tt,
          World (<[House.info_file := House.ObjInfo info]> files1) (readonly w)
            ((stdout w ++ [line1]) ++ ["📋 Model info saved as: model_info.json"])).
Proof.
  unfold House.train_model_save, bind, joblib_dump, json_dump, print.
  rewrite write_file_run.
  destruct (bool_decide (House.model_file ∈ readonly w)); [reflexivity|].
  cbv beta iota zeta. rewrite write_file_run. cbn [readonly files stdout].
  destruct (bool_decide (House.info_file ∈ readonly w)); reflexivity.
Qed.

Lemma churn_files_differ : Churn.info_file <> Churn.model_file.
Proof. discriminate. Qed.

Lemma house_files_differ : House.info_file <> House.model_file.
Proof. discriminate. Qed.

(** What the loaders do, by the presence of the two files. *)
Lemma churn_load_run (w : world Churn.obj) :
  Churn.load_model w =
    let missing path :=
      (Ok (None, None),
       World (files w) (readonly w)
         (stdout w ++
          [ "❌ Model file not found: [Errno 2] No such file or directory: '"
              +:+ path +:+ "'";
            "🔧 Please run 'python train_churn_model.py' first to create the model." ])) in
    match files w !! Churn.model_file with
    | None => missing Churn.model_file
    | Some model =>
        match files w !! Churn.info_file with
        | None => missing Churn.info_file
        | Some info => (Ok (Some model, Some info), w)
        end
    end.
Proof.
  unfold Churn.load_model, try_except, bind, joblib_load, read_file.
  destruct (files w !! Churn.model_file) as [m|].
  - destruct (files w !! Churn.info_file) as [i|]; [reflexivity|].
    cbn -[String.app]. rewrite <- app_assoc. reflexivity.
  - cbn -[String.app]. rewrite <- app_assoc. reflexivity.
Qed.

Lemma house_load_run (w : world House.obj) :
  House.load_model w =
    let missing path :=
      (Ok (None, None),
       World (files w) (readonly w)
         (stdout w ++
          [ "❌ Error: [Errno 2] No such file or directory: '" +:+ path +:+ "'";
            "Please run 'python train_model.py' first to create the model." ])) in
    match files w !! House.model_file with
    | None => missing House.model_file
    | Some model =>
        match files w !! House.info_file with
        | None => missing House.info_file
        | Some info => (Ok (Some model, Some info), w)
        end
    end.
Proof.
  unfold House.load_model, try_except, bind, joblib_load, json_load, read_file.
  destruct (files w !! House.model_file) as [m|].
  - destruct (files w !! House.info_file) as [i|]; [reflexivity|].
    cbn -[String.app]. rewrite <- app_assoc. reflexivity.
  - cbn -[String.app]. rewrite <- app_assoc. reflexivity.
Qed.

End ArtifactFacts.

Module ArtifactTheorems.
Import F64 Py Disk Examples ArtifactFacts.

(** C3: when the model file or the metadata file is missing, [load_model]
    raises nothing: it catches the [FileNotFoundError], prints the error
    and the instruction to run the training script first, and returns the
    pair [(None, None)] that its callers test for.  The disk is left as it
    was. *)
Theorem load_model_not_found (wc : world Churn.obj) (wh : world House.obj) :
  (files wc !! Churn.model_file = None \/ files wc !! Churn.info_file = None ->
   exists path,
     Churn.load_model wc =
       (Ok (None, None),
        World (files wc) (readonly wc)
          (stdout wc ++
           [ "❌ Model file not found: [Errno 2] No such file or directory: '"
               +:+ path +:+ "'";
             "🔧 Please run 'python train_churn_model.py' first to create the model." ]))) /\
  (files wh !! House.model_file = None \/ files wh !! House.info_file = None ->
   exists path,
     House.load_model wh =
       (Ok (None, None),
        World (files wh) (readonly wh)
          (stdout wh ++
           [ "❌ Error: [Errno 2] No such file or directory: '" +:+ path +:+ "'";
             "Please run 'python train_model.py' first to create the model." ]))).
Proof.
  split.
  - intros H. rewrite churn_load_run. cbv zeta beta.
    destruct (files wc !! Churn.model_file) as [m|].
    + destruct H as [H|H]; [discriminate|]. rewrite H. eexists. reflexivity.
    + eexists. reflexivity.
  - intros H. rewrite house_load_run. cbv zeta beta.
    destruct (files wh !! House.model_file) as [m|].
    + destruct H as [H|H]; [discriminate|]. rewrite H. eexists. reflexivity.
    + eexists. reflexivity.
Qed.

Lemma load_model_not_found_witness :
  (files (@empty_dir Churn.obj) !! Churn.model_file = None \/
   files (@empty_dir Churn.obj) !! Churn.info_file = None) /\
  (exists path,
     Churn.load_model empty_dir =
       (Ok (None, None),
        World ∅ ∅
          [ "❌ Model file not found: [Errno 2] No such file or directory: '"
              +:+ path +:+ "'";
            "🔧 Please run 'python train_churn_model.py' first to create the model." ])).
Proof.
  assert (H : files (@empty_dir Churn.obj) !! Churn.model_file = None \/
              files (@empty_dir Churn.obj) !! Churn.info_file = None)
    by (left; reflexivity).
  split; [exact H|].
  exact (proj1 (load_model_not_found empty_dir empty_dir) H).
Defined.

(** C7: what [load_model] reads is what the save wrote.  With both
    paths writable the save completes, and [load_model] then returns the
    model that was saved and a metadata object equal to the one that was
    written: the same feature names in the same order and the same
    metrics.  The same holds after any save that completed.  Loading
    prints nothing and leaves the disk as the save left it. *)
Theorem save_load_roundtrip :
  (forall (w : world Churn.obj) model acc imp,
     Churn.model_file ∉ readonly w -> Churn.info_file ∉ readonly w ->
     exists w' info,
       Churn.train_model_save model acc imp w = (Ok tt, w') /\
       Churn.load_model w' =
         (Ok (Some (Churn.ObjModel model), Some (Churn.ObjInfo info)), w') /\
       Churn.feature_names info = Churn.feature_columns /\
       Churn.accuracy info = acc /\
       Churn.feature_importance info = imp) /\
  (forall (w w' : world Churn.obj) model acc imp,
     Churn.train_model_save model acc imp w = (Ok tt, w') ->
     exists info,
       Churn.load_model w' =
         (Ok (Some (Churn.ObjModel model), Some (Churn.ObjInfo info)), w') /\
       Churn.feature_names info = Churn.feature_columns /\
       Churn.accuracy info = acc /\
       Churn.feature_importance info = imp) /\
  (forall (w : world House.obj) model r2 mse,
     House.model_file ∉ readonly w -> House.info_file ∉ readonly w ->
     exists w' info,
       House.train_model_save model r2 mse w = (Ok tt, w') /\
       House.load_model w' =
         (Ok (Some (House.ObjModel model), Some (House.ObjInfo info)), w') /\
       House.features info = House.feature_list /\
       House.performance info = House.Performance r2 (SFsqrt prec emax mse)) /\
  (forall (w w' : world House.obj) model r2 mse,
     House.train_model_save model r2 mse w = (Ok tt, w') ->
     exists info,
       House.load_model w' =
         (Ok (Some (House.ObjModel model), Some (House.ObjInfo info)), w') /\
       House.features info = House.feature_list /\
       House.performance info = House.Performance r2 (SFsqrt prec emax mse)).
Proof.
  assert (C : forall (w w' : world Churn.obj) model acc imp,
     Churn.train_model_save model acc imp w = (Ok tt, w') ->
     exists info,
       Churn.load_model w' =
         (Ok (Some (Churn.ObjModel model), Some (Churn.ObjInfo info)), w') /\
       Churn.feature_names info = Churn.feature_columns /\
       Churn.accuracy info = acc /\
       Churn.feature_importance info = imp).
  { intros w w' model acc imp. rewrite churn_save_run. cbv zeta.
    destruct (bool_decide _); [discriminate|].
    destruct (bool_decide _); [discriminate|].
    intros [= <-]. rewrite churn_load_run. cbv zeta beta. cbn [files].
    rewrite lookup_insert_ne by exact churn_files_differ.
    rewrite lookup_insert_eq, lookup_insert_eq.
    eexists. split; [reflexivity|]. repeat split. }
  assert (H : forall (w w' : world House.obj) model r2 mse,
     House.train_model_save model r2 mse w = (Ok tt, w') ->
     exists info,
       House.load_model w' =
         (Ok (Some (House.ObjModel model), Some (House.ObjInfo info)), w') /\
       House.features info = House.feature_list /\
       House.performance info = House.Performance r2 (SFsqrt prec emax mse)).
  { intros w w' model r2 mse. rewrite house_save_run. cbv zeta.
    destruct (bool_decide _); [discriminate|].
    destruct (bool_decide _); [discriminate|].
    intros [= <-]. rewrite house_load_run. cbv zeta beta. cbn [files].
    rewrite lookup_insert_ne by exact house_files_differ.
    rewrite lookup_insert_eq, lookup_insert_eq.
    eexists. split; [reflexivity|]. repeat split. }
  split; [|split; [exact C|split; [|exact H]]].
  - intros w model acc imp Hm Hi.
    assert (E : exists w', Churn.train_model_save model acc imp w = (Ok tt, w')).
    { rewrite churn_save_run. cbv zeta.
      rewrite (bool_decide_eq_false_2 _ Hm), (bool_decide_eq_false_2 _ Hi).
      eexists. reflexivity. }
    destruct E as [w' E]. destruct (C w w' model acc imp E) as [info L].
    exists w', info. split; [exact E|exact L].
  - intros w model r2 mse Hm Hi.
    assert (E : exists w', House.train_model_save model r2 mse w = (Ok tt, w')).
    { rewrite house_save_run. cbv zeta.
      rewrite (bool_decide_eq_false_2 _ Hm), (bool_decide_eq_false_2 _ Hi).
      eexists. reflexivity. }
    destruct E as [w' E]. destruct (H w w' model r2 mse E) as [info L].
    exists w', info. split; [exact E|exact L].
Qed.

Lemma save_load_roundtrip_witness :
  ((Churn.model_file ∉ readonly (@empty_dir Churn.obj)) /\
   (Churn.info_file ∉ readonly (@empty_dir Churn.obj)) /\
   exists w' info,
     Churn.train_model_save by_tenure f0_7 [("tenure", of_Z 1)] empty_dir = (Ok tt, w') /\
     Churn.load_model w' =
       (Ok (Some (Churn.ObjModel by_tenure), Some (Churn.ObjInfo info)), w') /\
     Churn.feature_names info = Churn.feature_columns /\
     Churn.accuracy info = f0_7 /\
     Churn.feature_importance info = [("tenure", of_Z 1)]) /\
  ((House.model_file ∉ readonly (@empty_dir House.obj)) /\
   (House.info_file ∉ readonly (@empty_dir House.obj)) /\
   exists w' info,
     House.train_model_save by_sqft f0_8 (of_Z 4) empty_dir = (Ok tt, w') /\
     House.load_model w' =
       (Ok (Some (House.ObjModel by_sqft), Some (House.ObjInfo info)), w') /\
     House.features info = House.feature_list /\
     House.performance info = House.Performance f0_8 (SFsqrt prec emax (of_Z 4))).
Proof.
  split.
  - split; [apply not_elem_of_empty|]. split; [apply not_elem_of_empty|].
    exact (proj1 save_load_roundtrip empty_dir by_tenure f0_7 [("tenure", of_Z 1)]
             (not_elem_of_empty _) (not_elem_of_empty _)).
  - split; [apply not_elem_of_empty|]. split; [apply not_elem_of_empty|].
    exact (proj1 (proj2 (proj2 save_load_roundtrip)) empty_dir by_sqft f0_8 (of_Z 4)
             (not_elem_of_empty _) (not_elem_of_empty _)).
Defined.

(** C8, as the code has it: the two files are written one after the
    other and nothing is undone.  A completed save leaves both files
    holding the saved pair.  Once the model file has been written it
    stays on disk whatever becomes of the metadata write: a save that
    fails there leaves the model file without its metadata. *)
Theorem save_outcomes :
  (forall (w : world Churn.obj) model acc imp,
     (forall w', Churn.train_model_save model acc imp w = (Ok tt, w') ->
        files w' !! Churn.model_file = Some (Churn.ObjModel model) /\
        files w' !! Churn.info_file =
          Some (Churn.ObjInfo
                  (Churn.ModelInfo Churn.feature_columns "RandomForestClassifier"
                     acc imp))) /\
     (forall w1, joblib_dump (Churn.ObjModel model) Churn.model_file w = (Ok tt, w1) ->
        files (Churn.train_model_save model acc imp w).2 !! Churn.model_file
          = Some (Churn.ObjModel model))) /\
  (forall (w : world House.obj) model r2 mse,
     (forall w', House.train_model_save model r2 mse w = (Ok tt, w') ->
        files w' !! House.model_file = Some (House.ObjModel model) /\
        exists info, files w' !! House.info_file = Some (House.ObjInfo info) /\
          House.features info = House.feature_list /\
          House.performance info = House.Performance r2 (SFsqrt prec emax mse)) /\
     (forall w1, joblib_dump (House.ObjModel model) House.model_file w = (Ok tt, w1) ->
        files (House.train_model_save model r2 mse w).2 !! House.model_file
          = Some (House.ObjModel model))).
Proof.
  split.
  - intros w model acc imp. split.
    + intros w'. rewrite churn_save_run. cbv zeta.
      destruct (bool_decide _); [discriminate|].
      destruct (bool_decide _); [discriminate|].
      intros [= <-]. cbn [files].
      rewrite lookup_insert_ne by exact churn_files_differ.
      rewrite !lookup_insert_eq. split; reflexivity.
    + intros w1. unfold joblib_dump. rewrite write_file_run, churn_save_run. cbv zeta.
      destruct (bool_decide (Churn.model_file ∈ readonly w)); [discriminate|].
      intros _. destruct (bool_decide _); cbn [snd files].
      * apply lookup_insert_eq.
      * rewrite lookup_insert_ne by exact churn_files_differ. apply lookup_insert_eq.
  - intros w model r2 mse. split.
    + intros w'. rewrite house_save_run. cbv zeta.
      destruct (bool_decide _); [discriminate|].
      destruct (bool_decide _); [discriminate|].
      intros [= <-]. cbn [files].
      rewrite lookup_insert_ne by exact house_files_differ.
      rewrite !lookup_insert_eq. split; [reflexivity|].
      eexists. split; [reflexivity|]. split; reflexivity.
    + intros w1. unfold joblib_dump. rewrite write_file_run, house_save_run. cbv zeta.
      destruct (bool_decide (House.model_file ∈ readonly w)); [discriminate|].
      intros _. destruct (bool_decide _); cbn [snd files].
      * apply lookup_insert_eq.
      * rewrite lookup_insert_ne by exact house_files_differ. apply lookup_insert_eq.
Qed.

Lemma save_outcomes_witness :
  (exists w1, joblib_dump (Churn.ObjModel by_tenure) Churn.model_file protected_dir
                = (Ok tt, w1)) /\
  files (Churn.train_model_save by_tenure f0_7 [] protected_dir).2 !! Churn.model_file
    = Some (Churn.ObjModel by_tenure) /\
  (exists w1, joblib_dump (House.ObjModel by_sqft) House.model_file protected_dir
                = (Ok tt, w1)) /\
  files (House.train_model_save by_sqft f0_8 (of_Z 4) protected_dir).2 !! House.model_file
    = Some (House.ObjModel by_sqft).
Proof.
  assert (C : joblib_dump (Churn.ObjModel by_tenure) Churn.model_file protected_dir
              = (Ok tt, World {[ Churn.model_file := Churn.ObjModel by_tenure ]}
                          {[ Churn.info_file; House.info_file ]} [])).
  { unfold joblib_dump. rewrite write_file_run.
    rewrite (bool_decide_eq_false_2 (Churn.model_file ∈ readonly protected_dir))
      by (apply (bool_decide_unpack _); vm_compute; exact I).
    reflexivity. }
  assert (H : joblib_dump (House.ObjModel by_sqft) House.model_file protected_dir
              = (Ok tt, World {[ House.model_file := House.ObjModel by_sqft ]}
                          {[ Churn.info_file; House.info_file ]} [])).
  { unfold joblib_dump. rewrite write_file_run.
    rewrite (bool_decide_eq_false_2 (House.model_file ∈ readonly protected_dir))
      by (apply (bool_decide_unpack _); vm_compute; exact I).
    reflexivity. }
  split; [eexists; exact C|].
  split; [exact (proj2 (proj1 save_outcomes protected_dir by_tenure f0_7 []) _ C)|].
  split; [eexists; exact H|].
  exact (proj2 (proj2 save_outcomes protected_dir by_sqft f0_8 (of_Z 4)) _ H).
Defined.

(** C8 as stated fails: with the metadata path write-protected, the save
    fails after the model file has been written, and the directory is
    left with a model file and no metadata file. *)
Lemma save_leaves_partial_artifact :
  let '(r, w') := Churn.train_model_save by_tenure f0_7 [] protected_dir in
  files (@protected_dir Churn.obj) !! Churn.model_file = None /\
  files (@protected_dir Churn.obj) !! Churn.info_file = None /\
  r = Raise (Exn PermissionError "[Errno 13] Permission denied: 'model_info.pkl'") /\
  files w' !! Churn.model_file = Some (Churn.ObjModel by_tenure) /\
  files w' !! Churn.info_file = None.
Proof.
  rewrite churn_save_run. cbv zeta.
  rewrite (bool_decide_eq_false_2 (Churn.model_file ∈ readonly protected_dir))
    by (apply (bool_decide_unpack _); vm_compute; exact I).
  rewrite (bool_decide_eq_true_2 (Churn.info_file ∈ readonly protected_dir))
    by (apply (bool_decide_unpack _); vm_compute; exact I).
  cbn [files]. rewrite lookup_insert_eq.
  rewrite lookup_insert_ne by (symmetry; exact churn_files_differ).
  repeat split.
Qed.

End ArtifactTheorems.

(** * Further properties of the pipelines *)

(** ** Row-wise facts about the synthesizers *)

Module RowFacts.
Import F64 Py Numpy F64Facts NumpyFacts SynthFacts Rowwise.

Lemma draws_over_Forall `{R : RandomState} {A B} (P : B -> Prop)
    (step : A -> rng -> B * rng) :
  (forall p g, P (step p g).1) -> forall ps g, Forall P (draws_over step ps g).1.
Proof.
  intros HP ps. induction ps as [|p ps IH]; intros g; simpl; [constructor|].
  specialize (HP p g). destruct (step p g) as [x g1]. specialize (IH g1).
  destruct (draws_over step ps g1) as [xs g2]. simpl in *. constructor; assumption.
Qed.

(** The array formula, read at one index. *)
Lemma churn_probability_formula_lookup (i : nat)
    (tenure contract payment : list Z) (monthly : list float)
    (age tech internet : list Z) (t c p : Z) (m : float) (a ts isv : Z) :
  tenure !! i = Some t -> contract !! i = Some c -> payment !! i = Some p ->
  monthly !! i = Some m -> age !! i = Some a -> tech !! i = Some ts ->
  internet !! i = Some isv ->
  Churn.churn_probability_formula tenure contract payment monthly age tech internet !! i
    = Some (churn_probability_row t c p m a ts isv).
Proof.
  intros Ht Hc Hp Hm Ha Hts His.
  unfold Churn.churn_probability_formula, Churn.scaled, churn_probability_row,
    churn_probability_flags.
  rewrite !lookup_zip_with, !list_lookup_fmap.
  rewrite Ht, Hc, Hp, Hm, Ha, Hts, His. reflexivity.
Qed.

Section Runs.
Context {R : RandomState}.

(** The churn synthesizer as the sequence of its nine array draws. *)
Lemma churn_run_explicit (n : Z) (g : rng) :
  0 <= n ->
  let N := Z.to_nat n in
  let d1 := draws (rng_randint 18 81) N (rng_seed 42) in
  let d2 := draws (rng_randint 1 73) N d1.2 in
  let d3 := draws (rng_uniform (of_Z 20) (of_Z 120)) N d2.2 in
  let d4 := draws (rng_normal (of_Z 0) (of_Z 100)) N d3.2 in
  let d5 := draws (rng_choice [0; 1; 2] [f0_5; f0_3; f0_2]) N d4.2 in
  let d6 := draws (rng_choice [0; 1; 2; 3] [f0_4; f0_2; f0_2; f0_2]) N d5.2 in
  let d7 := draws (rng_choice [0; 1; 2] [f0_4; f0_4; f0_2]) N d6.2 in
  let d8 := draws (rng_choice [0; 1] [f0_6; f0_4]) N d7.2 in
  let p := (fun p => clip p (of_Z 0) (of_Z 1)) <$>
             Churn.churn_probability_formula d2.1 d5.1 d6.1 d3.1 d1.1 d8.1 d7.1 in
  let d9 := draws_over (rng_binomial 1) p d8.2 in
  Churn.generate_synthetic_data n g =
    (Ok (Churn.DataFrame d1.1 d2.1 d3.1
           ((fun x => maximum x (of_Z 20)) <$>
              zip_with add (zip_with mul d3.1 (of_Z <$> d2.1)) d4.1)
           d5.1 d6.1 d7.1 d8.1 d9.1), d9.2).
Proof.
  intros Hn. destruct choice_checks as (C1 & C2 & C3 & C4).
  unfold Churn.generate_synthetic_data.
  next. unfold seed, put. cbv beta iota.
  next. rewrite randint_run by lia. cbv beta iota.
  next. rewrite randint_run by lia. cbv beta iota.
  next. rewrite uniform_run by lia. cbv beta iota.
  next. rewrite normal_run; [|vm_compute; reflexivity|lia]. cbv beta iota zeta.
  next. rewrite (choice_run _ _ _ _ C1) by lia. cbv beta iota.
  next. rewrite (choice_run _ _ _ _ C2) by lia. cbv beta iota.
  next. rewrite (choice_run _ _ _ _ C3) by lia. cbv beta iota.
  next. rewrite (choice_run _ _ _ _ C4) by lia. cbv beta iota.
  next. rewrite binomial_run.
  2:{ unfold binomial_check. rewrite formula_valid. reflexivity. }
  reflexivity.
Qed.

(** The price synthesizer as the sequence of its five array draws. *)
Lemma house_run_explicit (n : Z) (g : rng) :
  0 <= n ->
  let N := Z.to_nat n in
  let d1 := draws (rng_randint 1 6) N (rng_seed 42) in
  let d2 := draws (rng_randint 1 4) N d1.2 in
  let d3 := draws (rng_randint 800 4000) N d2.2 in
  let d4 := draws (rng_randint 0 50) N d3.2 in
  let d5 := draws (rng_normal (of_Z 0) (of_Z 20000)) N d4.2 in
  House.generate_sample_data n g =
    (Ok (House.DataFrame d1.1 d2.1 d3.1 d4.1
           ((fun x => maximum x (of_Z 50000)) <$>
              zip_with add
                (of_Z <$> House.price_without_noise d1.1 d2.1 d3.1 d4.1) d5.1)),
     d5.2).
Proof.
  intros Hn. unfold House.generate_sample_data.
  next. unfold seed, put. cbv beta iota.
  next. rewrite randint_run by lia. cbv beta iota.
  next. rewrite randint_run by lia. cbv beta iota.
  next. rewrite randint_run by lia. cbv beta iota.
  next. rewrite randint_run by lia. cbv beta iota.
  next. rewrite normal_run; [|vm_compute; reflexivity|lia]. reflexivity.
Qed.

End Runs.

(** The stand-in generator obeys the remaining laws as well. *)
Lemma lcg_sampler_laws : SamplerLaws Examples.lcg.
Proof.
  split.
  - intros low high g H. cbn. split; [|exact H].
    destruct (gt_not_nan high low H) as [_ Hl].
    unfold le, SFleb. destruct low as [s|s| |s m e]; try discriminate.
    + reflexivity.
    + destruct s; reflexivity.
    + simpl. destruct s; rewrite Z.compare_refl, Pos.compare_cont_refl; reflexivity.
  - intros a p g Ha. cbn. apply list_elem_of_In, nth_In.
    destruct a as [|x a]; [contradiction|].
    pose proof (Z.mod_pos_bound g (Z.of_nat (length (x :: a)))) as B.
    cbn [length] in *. lia.
  - intros n p g Hn. cbn. destruct (gt p f0_5); lia.
Qed.

End RowFacts.

Module SynthExtras.
Import F64 Py Numpy F64Facts NumpyFacts SynthFacts Rowwise RowFacts.

Lemma wrap64_small (z : Z) : - 2^63 <= z < 2^63 -> wrap64 z = z.
Proof. intros H. unfold wrap64. rewrite Z.mod_small; lia. Qed.

(** In the ranges of the four feature draws the int64 arithmetic of the
    price formula never wraps. *)
Lemma price_without_noise_lookup (i : nat) (bs bas ss ags : list Z) (b ba s a : Z) :
  bs !! i = Some b -> bas !! i = Some ba -> ss !! i = Some s -> ags !! i = Some a ->
  1 <= b < 6 -> 1 <= ba < 4 -> 800 <= s < 4000 -> 0 <= a < 50 ->
  House.price_without_noise bs bas ss ags !! i = Some (linear_price b ba s a).
Proof.
  intros Hb Hba Hs Ha Rb Rba Rs Ra. unfold House.price_without_noise.
  rewrite !lookup_zip_with, !list_lookup_fmap, Hb, Hba, Hs, Ha. cbn [fmap option_fmap option_map mbind option_bind].
  f_equal. unfold linear_price, House.isub, House.iadd, House.imul,
    House.base_price, House.price_per_bedroom, House.price_per_bathroom,
    House.price_per_sqft, House.age_depreciation.
  rewrite (wrap64_small (b * 25000)) by lia.
  rewrite (wrap64_small (ba * 15000)) by lia.
  rewrite (wrap64_small (s * 100)) by lia.
  rewrite (wrap64_small (a * 1000)) by lia.
  rewrite (wrap64_small (50000 + b * 25000)) by lia.
  rewrite (wrap64_small (50000 + b * 25000 + ba * 15000)) by lia.
  rewrite (wrap64_small (50000 + b * 25000 + ba * 15000 + s * 100)) by lia.
  apply wrap64_small. lia.
Qed.

(** X1. The churn synthesizer returns, for every [n >= 0], a table whose
    nine columns all have exactly [n] entries. *)
Theorem churn_dataset_shape `{R : RandomState} (n : Z) (g : rng) :
  0 <= n ->
  exists df g', Churn.generate_synthetic_data n g = (Ok df, g') /\
    length (Churn.col_age df) = Z.to_nat n /\
    length (Churn.col_tenure df) = Z.to_nat n /\
    length (Churn.col_monthly_charges df) = Z.to_nat n /\
    length (Churn.col_total_charges df) = Z.to_nat n /\
    length (Churn.col_contract_type df) = Z.to_nat n /\
    length (Churn.col_payment_method df) = Z.to_nat n /\
    length (Churn.col_internet_service df) = Z.to_nat n /\
    length (Churn.col_tech_support df) = Z.to_nat n /\
    length (Churn.col_churn df) = Z.to_nat n.
Proof.
  intros Hn. eexists _, _. split; [apply (churn_run_explicit n g Hn)|].
  cbn [Churn.col_age Churn.col_tenure Churn.col_monthly_charges
       Churn.col_total_charges Churn.col_contract_type Churn.col_payment_method
       Churn.col_internet_service Churn.col_tech_support Churn.col_churn].
  repeat (split; [apply draws_length|]).
  split; [rewrite length_fmap, !length_zip_with, length_fmap, !draws_length; lia|].
  repeat (split; [apply draws_length|]).
  rewrite draws_over_length, length_fmap.
  apply formula_length; apply draws_length.
Qed.

Lemma churn_dataset_shape_witness :
  0 <= 4 /\
  exists df g', Churn.generate_synthetic_data (R := Examples.lcg) 4 1 = (Ok df, g') /\
    length (Churn.col_age df) = 4%nat /\
    length (Churn.col_tenure df) = 4%nat /\
    length (Churn.col_monthly_charges df) = 4%nat /\
    length (Churn.col_total_charges df) = 4%nat /\
    length (Churn.col_contract_type df) = 4%nat /\
    length (Churn.col_payment_method df) = 4%nat /\
    length (Churn.col_internet_service df) = 4%nat /\
    length (Churn.col_tech_support df) = 4%nat /\
    length (Churn.col_churn df) = 4%nat.
Proof.
  split; [lia|].
  exact (churn_dataset_shape (R := Examples.lcg) 4 1 ltac:(lia)).
Defined.

(** X2. With a generator that keeps the documented ranges, every column
    of the churn dataset stays in its domain: ages 18 to 80, tenures 1 to
    72, monthly charges in [20, 120), the four categorical codes within
    their code lists, and a churn label that is 0 or 1. *)
Theorem churn_dataset_domains `{R : RandomState}
    (L : RandomStateLaws R) (S : SamplerLaws R) (n : Z) (g : rng) :
  0 <= n ->
  exists df g', Churn.generate_synthetic_data n g = (Ok df, g') /\
    Forall (fun a => 18 <= a <= 80) (Churn.col_age df) /\
    Forall (fun t => 1 <= t <= 72) (Churn.col_tenure df) /\
    Forall (fun m => le (of_Z 20) m = true /\ lt m (of_Z 120) = true)
      (Churn.col_monthly_charges df) /\
    Forall (fun c => c ∈ [0; 1; 2]) (Churn.col_contract_type df) /\
    Forall (fun c => c ∈ [0; 1; 2; 3]) (Churn.col_payment_method df) /\
    Forall (fun c => c ∈ [0; 1; 2]) (Churn.col_internet_service df) /\
    Forall (fun c => c ∈ [0; 1]) (Churn.col_tech_support df) /\
    Forall (fun y => y = 0 \/ y = 1) (Churn.col_churn df).
Proof.
  intros Hn. eexists _, _. split; [apply (churn_run_explicit n g Hn)|].
  cbn [Churn.col_age Churn.col_tenure Churn.col_monthly_charges
       Churn.col_total_charges Churn.col_contract_type Churn.col_payment_method
       Churn.col_internet_service Churn.col_tech_support Churn.col_churn].
  split. { apply draws_Forall. intros g0.
           pose proof (randint_range 18 81 g0 ltac:(lia)). lia. }
  split. { apply draws_Forall. intros g0.
           pose proof (randint_range 1 73 g0 ltac:(lia)). lia. }
  split. { apply draws_Forall. intros g0. apply uniform_range.
           vm_compute. reflexivity. }
  split. { apply draws_Forall. intros g0. apply choice_member. discriminate. }
  split. { apply draws_Forall. intros g0. apply choice_member. discriminate. }
  split. { apply draws_Forall. intros g0. apply choice_member. discriminate. }
  split. { apply draws_Forall. intros g0. apply choice_member. discriminate. }
  apply draws_over_Forall. intros p g0.
  pose proof (binomial_range 1 p g0 ltac:(lia)). lia.
Qed.

Lemma churn_dataset_domains_witness :
  0 <= 4 /\
  exists df g', Churn.generate_synthetic_data (R := Examples.lcg) 4 1 = (Ok df, g') /\
    Forall (fun a => 18 <= a <= 80) (Churn.col_age df) /\
    Forall (fun t => 1 <= t <= 72) (Churn.col_tenure df) /\
    Forall (fun m => le (of_Z 20) m = true /\ lt m (of_Z 120) = true)
      (Churn.col_monthly_charges df) /\
    Forall (fun c => c ∈ [0; 1; 2]) (Churn.col_contract_type df) /\
    Forall (fun c => c ∈ [0; 1; 2; 3]) (Churn.col_payment_method df) /\
    Forall (fun c => c ∈ [0; 1; 2]) (Churn.col_internet_service df) /\
    Forall (fun c => c ∈ [0; 1]) (Churn.col_tech_support df) /\
    Forall (fun y => y = 0 \/ y = 1) (Churn.col_churn df).
Proof.
  split; [lia|].
  exact (churn_dataset_domains (R := Examples.lcg) lcg_laws lcg_sampler_laws 4 1
           ltac:(lia)).
Defined.

(** X3. Every [total_charges] entry is the product of the row's monthly
    charge and tenure plus the row's entry of the noise array, floored at
    20.  The noise array is the one normal draw of the run, taken after
    the ages, tenures and monthly charges; it has one finite entry per
    row. *)
Theorem churn_total_charges_rows `{R : RandomState}
    (L : RandomStateLaws R) (n : Z) (g : rng) :
  0 <= n ->
  exists df g', Churn.generate_synthetic_data n g = (Ok df, g') /\
    length (churn_noise (Z.to_nat n)) = Churn.nrows df /\
    length (Churn.col_total_charges df) = Churn.nrows df /\
    forall i m t noise,
      Churn.col_monthly_charges df !! i = Some m ->
      Churn.col_tenure df !! i = Some t ->
      churn_noise (Z.to_nat n) !! i = Some noise ->
      is_finite noise = true /\
      Churn.col_total_charges df !! i = Some (total_charges_row m t noise).
Proof.
  intros Hn. eexists _, _. split; [apply (churn_run_explicit n g Hn)|].
  unfold Churn.nrows, churn_noise.
  cbn [Churn.col_age Churn.col_tenure Churn.col_monthly_charges
       Churn.col_total_charges].
  split; [rewrite !draws_length; reflexivity|].
  split.
  { rewrite length_fmap, !length_zip_with, length_fmap, !draws_length. lia. }
  intros i m t z Hm Ht Hz. split.
  - revert Hz. apply (proj1 (Forall_lookup (fun x => is_finite x = true) _)).
    apply draws_Forall. intros g0. apply normal_finite; vm_compute; reflexivity.
  - rewrite list_lookup_fmap, !lookup_zip_with, list_lookup_fmap, Hm, Ht.
    cbn [option_bind mbind option_fmap fmap]. cbv beta. rewrite Hz. reflexivity.
Qed.

Lemma churn_total_charges_rows_witness :
  0 <= 4 /\
  exists df g', Churn.generate_synthetic_data (R := Examples.lcg) 4 1 = (Ok df, g') /\
    length (churn_noise (R := Examples.lcg) (Z.to_nat 4)) = Churn.nrows df /\
    length (Churn.col_total_charges df) = Churn.nrows df /\
    forall i m t noise,
      Churn.col_monthly_charges df !! i = Some m ->
      Churn.col_tenure df !! i = Some t ->
      churn_noise (R := Examples.lcg) (Z.to_nat 4) !! i = Some noise ->
      is_finite noise = true /\
      Churn.col_total_charges df !! i = Some (total_charges_row m t noise).
Proof.
  split; [lia|].
  exact (churn_total_charges_rows (R := Examples.lcg) lcg_laws 4 1 ltac:(lia)).
Defined.

(** X4. The price synthesizer returns five columns of [n] entries, and
    with a generator that keeps [randint] within its bounds the features
    stay in 1..5 bedrooms, 1..3 bathrooms, 800..3999 square feet and
    0..49 years: the upper bounds of the draws are exclusive. *)
Theorem house_dataset_domains `{R : RandomState}
    (L : RandomStateLaws R) (n : Z) (g : rng) :
  0 <= n ->
  exists df g', House.generate_sample_data n g = (Ok df, g') /\
    length (House.col_bedrooms df) = Z.to_nat n /\
    length (House.col_bathrooms df) = Z.to_nat n /\
    length (House.col_sqft df) = Z.to_nat n /\
    length (House.col_age df) = Z.to_nat n /\
    length (House.col_price df) = Z.to_nat n /\
    Forall (fun b => 1 <= b <= 5) (House.col_bedrooms df) /\
    Forall (fun b => 1 <= b <= 3) (House.col_bathrooms df) /\
    Forall (fun s => 800 <= s <= 3999) (House.col_sqft df) /\
    Forall (fun a => 0 <= a <= 49) (House.col_age df).
Proof.
  intros Hn. eexists _, _. split; [apply (house_run_explicit n g Hn)|].
  cbn [House.col_bedrooms House.col_bathrooms House.col_sqft House.col_age
       House.col_price].
  do 4 (split; [apply draws_length|]).
  split.
  { rewrite length_fmap, length_zip_with, length_fmap, draws_length.
    rewrite (price_without_noise_length (Z.to_nat n)) by apply draws_length. lia. }
  split. { apply draws_Forall. intros g0.
           pose proof (randint_range 1 6 g0 ltac:(lia)). lia. }
  split. { apply draws_Forall. intros g0.
           pose proof (randint_range 1 4 g0 ltac:(lia)). lia. }
  split. { apply draws_Forall. intros g0.
           pose proof (randint_range 800 4000 g0 ltac:(lia)). lia. }
  apply draws_Forall. intros g0.
  pose proof (randint_range 0 50 g0 ltac:(lia)). lia.
Qed.

Lemma house_dataset_domains_witness :
  0 <= 4 /\
  exists df g', House.generate_sample_data (R := Examples.lcg) 4 1 = (Ok df, g') /\
    length (House.col_bedrooms df) = 4%nat /\
    length (House.col_bathrooms df) = 4%nat /\
    length (House.col_sqft df) = 4%nat /\
    length (House.col_age df) = 4%nat /\
    length (House.col_price df) = 4%nat /\
    Forall (fun b => 1 <= b <= 5) (House.col_bedrooms df) /\
    Forall (fun b => 1 <= b <= 3) (House.col_bathrooms df) /\
    Forall (fun s => 800 <= s <= 3999) (House.col_sqft df) /\
    Forall (fun a => 0 <= a <= 49) (House.col_age df).
Proof.
  split; [lia|].
  exact (house_dataset_domains (R := Examples.lcg) lcg_laws 4 1 ltac:(lia)).
Defined.

(** X5. Every price is the linear combination of the row's features
    plus the row's entry of the noise array, floored at 50000.  The
    int64 arithmetic of the combination never wraps: its result is the
    exact integer, which lies between 121000 and 619900, so only the
    noise can bring a price down to the floor.  The noise array is the
    one normal draw of the run, taken after the four feature arrays; it
    has one finite entry per row. *)
Theorem house_price_rows `{R : RandomState}
    (L : RandomStateLaws R) (n : Z) (g : rng) :
  0 <= n ->
  exists df g', House.generate_sample_data n g = (Ok df, g') /\
    length (house_noise (Z.to_nat n)) = House.nrows df /\
    length (House.col_price df) = House.nrows df /\
    forall i b ba s a noise,
      House.col_bedrooms df !! i = Some b ->
      House.col_bathrooms df !! i = Some ba ->
      House.col_sqft df !! i = Some s ->
      House.col_age df !! i = Some a ->
      house_noise (Z.to_nat n) !! i = Some noise ->
      121000 <= linear_price b ba s a <= 619900 /\
      House.price_without_noise (House.col_bedrooms df) (House.col_bathrooms df)
        (House.col_sqft df) (House.col_age df) !! i = Some (linear_price b ba s a) /\
      is_finite noise = true /\
      House.col_price df !! i = Some (price_row b ba s a noise).
Proof.
  intros Hn. eexists _, _. split; [apply (house_run_explicit n g Hn)|].
  unfold House.nrows, house_noise.
  cbn [House.col_bedrooms House.col_bathrooms House.col_sqft House.col_age
       House.col_price].
  split; [rewrite !draws_length; reflexivity|].
  split.
  { rewrite length_fmap, length_zip_with, length_fmap.
    unfold House.price_without_noise.
    rewrite !length_zip_with, !length_fmap, !draws_length. lia. }
  intros i b ba s a z Hb Hba Hs Ha Hz.
  assert (Rb : 1 <= b < 6).
  { eapply (proj1 (Forall_lookup (fun b => 1 <= b < 6) _)); [|exact Hb].
    apply draws_Forall. intros g0. apply randint_range. lia. }
  assert (Rba : 1 <= ba < 4).
  { eapply (proj1 (Forall_lookup (fun b => 1 <= b < 4) _)); [|exact Hba].
    apply draws_Forall. intros g0. apply randint_range. lia. }
  assert (Rs : 800 <= s < 4000).
  { eapply (proj1 (Forall_lookup (fun b => 800 <= b < 4000) _)); [|exact Hs].
    apply draws_Forall. intros g0. apply randint_range. lia. }
  assert (Ra : 0 <= a < 50).
  { eapply (proj1 (Forall_lookup (fun b => 0 <= b < 50) _)); [|exact Ha].
    apply draws_Forall. intros g0. apply randint_range. lia. }
  split.
  { unfold linear_price, House.base_price, House.price_per_bedroom,
      House.price_per_bathroom, House.price_per_sqft, House.age_depreciation. lia. }
  split.
  { exact (price_without_noise_lookup i _ _ _ _ b ba s a Hb Hba Hs Ha Rb Rba Rs Ra). }
  split.
  - revert Hz. apply (proj1 (Forall_lookup (fun x => is_finite x = true) _)).
    apply draws_Forall. intros g0. apply normal_finite; vm_compute; reflexivity.
  - rewrite list_lookup_fmap, lookup_zip_with, list_lookup_fmap.
    rewrite (price_without_noise_lookup i _ _ _ _ b ba s a Hb Hba Hs Ha Rb Rba Rs Ra).
    cbn [option_bind mbind option_fmap fmap]. cbv beta. rewrite Hz. reflexivity.
Qed.

Lemma house_price_rows_witness :
  0 <= 4 /\
  exists df g', House.generate_sample_data (R := Examples.lcg) 4 1 = (Ok df, g') /\
    length (house_noise (R := Examples.lcg) (Z.to_nat 4)) = House.nrows df /\
    length (House.col_price df) = House.nrows df /\
    forall i b ba s a noise,
      House.col_bedrooms df !! i = Some b ->
      House.col_bathrooms df !! i = Some ba ->
      House.col_sqft df !! i = Some s ->
      House.col_age df !! i = Some a ->
      house_noise (R := Examples.lcg) (Z.to_nat 4) !! i = Some noise ->
      121000 <= linear_price b ba s a <= 619900 /\
      House.price_without_noise (House.col_bedrooms df) (House.col_bathrooms df)
        (House.col_sqft df) (House.col_age df) !! i = Some (linear_price b ba s a) /\
      is_finite noise = true /\
      House.col_price df !! i = Some (price_row b ba s a noise).
Proof.
  split; [lia|].
  exact (house_price_rows (R := Examples.lcg) lcg_laws 4 1 ltac:(lia)).
Defined.

(** X6. Whatever the feature arrays hold, the array handed to the
    binomial sampler agrees row by row with the scalar formula and holds
    only probabilities (between 0 and 1, never NaN).  The clip is needed
    on both sides: the raw formula reaches 1.05 for a new, young,
    month-to-month customer paying high charges by electronic check on
    fiber without tech support, and -0.05 for a customer whose only
    condition is tech support. *)
Theorem churn_probability_is_probability
    (tenure contract payment : list Z) (monthly : list float)
    (age tech internet : list Z) :
  Forall (fun q => le (of_Z 0) q = true /\ le q (of_Z 1) = true)
    (clipped <$> Churn.churn_probability_formula tenure contract payment monthly
                   age tech internet) /\
  (forall i t c p m a ts isv,
     tenure !! i = Some t -> contract !! i = Some c -> payment !! i = Some p ->
     monthly !! i = Some m -> age !! i = Some a -> tech !! i = Some ts ->
     internet !! i = Some isv ->
     (clipped <$> Churn.churn_probability_formula tenure contract payment monthly
                    age tech internet) !! i
       = Some (clipped (churn_probability_row t c p m a ts isv))) /\
  gt (churn_probability_flags true true true true true false true) (of_Z 1) = true /\
  clipped (churn_probability_flags true true true true true false true) = of_Z 1 /\
  lt (churn_probability_flags false false false false false true false) (of_Z 0) = true /\
  clipped (churn_probability_flags false false false false false true false) = of_Z 0.
Proof.
  split.
  - apply Forall_fmap.
    eapply Forall_impl; [apply formula_reachable|].
    intros q Hq. cbv beta.
    assert (V : forallb (fun p => le (of_Z 0) (clipped p) && le (clipped p) (of_Z 1))
                  Churn.reachable = true) by (vm_compute; reflexivity).
    rewrite forallb_forall in V. specialize (V q Hq).
    apply andb_true_iff in V. exact V.
  - split.
    + intros i t c p m a ts isv Ht Hc Hp Hm Ha Hts His.
      rewrite list_lookup_fmap.
      rewrite (churn_probability_formula_lookup i _ _ _ _ _ _ _ t c p m a ts isv)
        by assumption.
      reflexivity.
    + repeat split; vm_compute; reflexivity.
Qed.

Lemma churn_probability_is_probability_witness :
  exists q,
    (clipped <$> Churn.churn_probability_formula [3] [0] [0] [of_Z 95] [25] [0] [1])
      !! 0%nat = Some q /\
    q = clipped (churn_probability_row 3 0 0 (of_Z 95) 25 0 1).
Proof.
  eexists. split; [|reflexivity].
  exact (proj1 (proj2 (churn_probability_is_probability
                         [3] [0] [0] [of_Z 95] [25] [0] [1]))
           0%nat 3 0 0 (of_Z 95) 25 0 1
           eq_refl eq_refl eq_refl eq_refl eq_refl eq_refl eq_refl).
Defined.

(** X7. Each of the six risk conditions of the formula never lowers the
    clipped churn probability, and tech support never raises it, whatever
    the other six conditions are. *)
Theorem churn_probability_factor_signs (n m e h y t f : bool) :
  le (clipped (churn_probability_flags false m e h y t f))
     (clipped (churn_probability_flags true m e h y t f)) = true /\
  le (clipped (churn_probability_flags n false e h y t f))
     (clipped (churn_probability_flags n true e h y t f)) = true /\
  le (clipped (churn_probability_flags n m false h y t f))
     (clipped (churn_probability_flags n m true h y t f)) = true /\
  le (clipped (churn_probability_flags n m e false y t f))
     (clipped (churn_probability_flags n m e true y t f)) = true /\
  le (clipped (churn_probability_flags n m e h false t f))
     (clipped (churn_probability_flags n m e h true t f)) = true /\
  le (clipped (churn_probability_flags n m e h y true f))
     (clipped (churn_probability_flags n m e h y false f)) = true /\
  le (clipped (churn_probability_flags n m e h y t false))
     (clipped (churn_probability_flags n m e h y t true)) = true.
Proof.
  destruct n, m, e, h, y, t, f; vm_compute; repeat split.
Qed.

End SynthExtras.

(** ** More on the predictor *)

Module PredictExtras.
Import F64 Py F64Facts Churn PredictFacts Rowwise Profiles Examples.

Lemma lex_lt_le_trans (e1 e2 e3 : Z) (m1 m2 m3 : positive) :
  match e1 ?= e2 with Lt => Lt | Gt => Gt | Eq => Pos.compare_cont Eq m1 m2 end = Lt ->
  match e2 ?= e3 with Lt => Lt | Gt => Gt | Eq => Pos.compare_cont Eq m2 m3 end <> Gt ->
  match e1 ?= e3 with Lt => Lt | Gt => Gt | Eq => Pos.compare_cont Eq m1 m3 end = Lt.
Proof.
  change (Pos.compare_cont Eq m1 m2) with (m1 ?= m2)%positive.
  change (Pos.compare_cont Eq m2 m3) with (m2 ?= m3)%positive.
  change (Pos.compare_cont Eq m1 m3) with (m1 ?= m3)%positive.
  destruct (Z.compare_spec e1 e2), (Z.compare_spec e2 e3), (Z.compare_spec e1 e3);
    try discriminate; try congruence; try lia; subst;
    destruct (Pos.compare_spec m1 m2), (Pos.compare_spec m2 m3), (Pos.compare_spec m1 m3);
    try discriminate; try congruence; try lia.
Qed.

Lemma lex_gt_ge_trans (e1 e2 e3 : Z) (m1 m2 m3 : positive) :
  match e1 ?= e2 with Lt => Gt | Gt => Lt | Eq => CompOpp (Pos.compare_cont Eq m1 m2) end = Lt ->
  match e2 ?= e3 with Lt => Gt | Gt => Lt | Eq => CompOpp (Pos.compare_cont Eq m2 m3) end <> Gt ->
  match e1 ?= e3 with Lt => Gt | Gt => Lt | Eq => CompOpp (Pos.compare_cont Eq m1 m3) end = Lt.
Proof.
  change (Pos.compare_cont Eq m1 m2) with (m1 ?= m2)%positive.
  change (Pos.compare_cont Eq m2 m3) with (m2 ?= m3)%positive.
  change (Pos.compare_cont Eq m1 m3) with (m1 ?= m3)%positive.
  destruct (Z.compare_spec e1 e2), (Z.compare_spec e2 e3), (Z.compare_spec e1 e3);
    try discriminate; try congruence; try lia; subst;
    destruct (Pos.compare_spec m1 m2), (Pos.compare_spec m2 m3), (Pos.compare_spec m1 m3);
    simpl; try discriminate; try congruence; try lia.
Qed.

(** A threshold passed by [p] is passed by everything above [p]. *)
Lemma gt_le_trans (c p q : float) :
  gt p c = true -> le p q = true -> gt q c = true.
Proof.
  unfold gt, le, SFltb, SFleb.
  destruct (SFcompare c p) as [[]|] eqn:E1; try discriminate. intros _.
  destruct (SFcompare p q) as [o|] eqn:E2; [|discriminate]. intros H2.
  assert (N2 : o <> Gt) by (destruct o; congruence). clear H2.
  assert (G : SFcompare c q = Some Lt); [|rewrite G; reflexivity].
  destruct c as [sc|sc| |sc mc ec], p as [sp|sp| |sp mp ep], q as [sq|sq| |sq mq eq];
    simpl in *; try discriminate;
    try (destruct sc; discriminate); try (destruct sp; discriminate);
    try (destruct sc, sp; discriminate);
    try (destruct sp, sq; simpl in *; congruence);
    try (destruct sc, sp, sq; simpl in *; congruence).
  all: destruct sc, sp, sq; simpl in *; try congruence; try discriminate.
  all: injection E1 as E1; injection E2 as E2; subst o; f_equal.
  - eapply lex_gt_ge_trans; eassumption.
  - eapply lex_lt_le_trans; eassumption.
Qed.

(** X8. The risk label never goes down when the probability goes up:
    for [p <= q] the label of [q] is at least that of [p] in the order
    Low, Medium, High. *)
Theorem risk_level_monotone (p q : float) :
  le p q = true -> (risk_rank (risk_level p) <= risk_rank (risk_level q))%nat.
Proof.
  intros H. unfold risk_level.
  destruct (gt p f0_7) eqn:E7.
  - rewrite (gt_le_trans f0_7 p q E7 H). reflexivity.
  - destruct (gt p f0_3) eqn:E3.
    + rewrite (gt_le_trans f0_3 p q E3 H).
      destruct (gt q f0_7); vm_compute; lia.
    + destruct (gt q f0_7); [vm_compute; lia|].
      destruct (gt q f0_3); vm_compute; lia.
Qed.

Lemma risk_level_monotone_witness :
  le f0_3 f0_8 = true /\
  (risk_rank (risk_level f0_3) <= risk_rank (risk_level f0_8))%nat.
Proof.
  split; [reflexivity|].
  exact (risk_level_monotone f0_3 f0_8 eq_refl).
Defined.

Lemma omap_all_present (d : pydict) (names : list string) :
  Forall (fun n => n ∈ keys d) names ->
  keys (omap (fun n => pair n <$> dict_get d n) names) = names /\
  Forall (fun kv => dict_get d kv.1 = Some kv.2)
    (omap (fun n => pair n <$> dict_get d n) names).
Proof.
  unfold keys. induction names as [|n names IH]; intros H.
  - split; [reflexivity|constructor].
  - apply Forall_cons in H as [Hn H]. destruct (IH H) as [IH1 IH2]. cbn.
    destruct (dict_get d n) as [v|] eqn:E.
    + cbn. split; [f_equal; exact IH1|]. constructor; [exact E|exact IH2].
    + apply dict_get_None in E. contradiction.
Qed.

(** X9. Column selection succeeds exactly when every schema name is a key
    of the mapping, and the frame it hands to the model then has exactly
    the schema's columns, in schema order, each with the mapping's value. *)
Theorem select_columns_schema_order `{Pd : Pandas}
    (data : pydict) (names : list string) :
  (Forall (fun n => n ∈ keys data) names <->
   exists frame, select_columns (DataFrame_of data) names = Ok frame) /\
  (forall frame, select_columns (DataFrame_of data) names = Ok frame ->
     keys frame = names /\
     Forall (fun kv => dict_get data kv.1 = Some kv.2) frame).
Proof.
  unfold select_columns, DataFrame_of.
  destruct (filter (fun n => n ∉ keys data) names) as [|m ms] eqn:F.
  - assert (A : Forall (fun n => n ∈ keys data) names).
    { apply Forall_forall. intros n Hn.
      destruct (decide (n ∈ keys data)) as [Hin|Hnin]; [exact Hin|].
      assert (Hf : n ∈ filter (fun n => n ∉ keys data) names)
        by (apply list_elem_of_filter; split; assumption).
      rewrite F in Hf. inversion Hf. }
    split.
    + split; [intros _; eexists; reflexivity | intros _; exact A].
    + intros frame [= <-]. apply omap_all_present, A.
  - split.
    + split; [|intros [frame Hf]; discriminate].
      intros A. exfalso.
      assert (Hm : m ∈ filter (fun n => n ∉ keys data) names) by (rewrite F; left).
      apply list_elem_of_filter in Hm as [Hnin Hin].
      rewrite Forall_forall in A. exact (Hnin (A m Hin)).
    + intros frame Hf. discriminate.
Qed.

Lemma select_columns_schema_order_witness :
  select_columns (Pd := plain_pandas) (DataFrame_of high_risk_shuffled) feature_columns
    = Ok high_risk /\
  keys high_risk = feature_columns.
Proof.
  assert (E : select_columns (Pd := plain_pandas) (DataFrame_of high_risk_shuffled)
                feature_columns = Ok high_risk) by (vm_compute; reflexivity).
  split; [exact E|].
  exact (proj1 (proj2 (select_columns_schema_order (Pd := plain_pandas)
                         high_risk_shuffled feature_columns) high_risk E)).
Defined.

(** X10. [predict_churn] returns a result record exactly when the column
    selection succeeds, the model predicts at least one row, and its first
    probability row has at least two classes; the record then holds the
    first prediction, the second class probability as
    [churn_probability] and the first as [no_churn_probability]. *)
Theorem predict_churn_success `{Pd : Pandas} (model : Model) (info : model_info)
    (data : pydict) (y : Z) (p1 p0 : float) :
  predict_churn model info data = Ok (result_record y p1 p0) <->
  exists frame predictions probas row,
    select_columns (DataFrame_of data) (feature_names info) = Ok frame /\
    predict model frame = Ok predictions /\ predictions !! 0%nat = Some y /\
    predict_proba model frame = Ok probas /\ probas !! 0%nat = Some row /\
    row !! 1%nat = Some p1 /\ row !! 0%nat = Some p0.
Proof.
  unfold predict_churn, pure_try, predict_churn_body, rbind, getitem, result_record.
  split.
  - destruct (select_columns _ _) as [frame|e];
      [|destruct (Exception _); discriminate].
    destruct (predict model frame) as [ps|e] eqn:Ep;
      [|destruct (Exception _); discriminate].
    destruct (ps !! 0%nat) as [y'|] eqn:Ey; [|discriminate].
    destruct (predict_proba model frame) as [pp|e] eqn:Epp;
      [|destruct (Exception _); discriminate].
    destruct (pp !! 0%nat) as [row|] eqn:Er; [|discriminate].
    destruct (row !! 1%nat) as [q1|] eqn:E1; [|discriminate].
    destruct (row !! 0%nat) as [q0|] eqn:E0; [|discriminate].
    cbv beta iota. intros [= <- <- <-].
    exists frame, ps, pp, row. repeat split; assumption.
  - intros (frame & ps & pp & row & Hs & Hp & Hy & Hpp & Hr & H1 & H0).
    rewrite Hs. cbv beta iota. rewrite Hp. cbv beta iota. rewrite Hy. cbv beta iota.
    rewrite Hpp. cbv beta iota. rewrite Hr. cbv beta iota. rewrite H1. cbv beta iota.
    rewrite H0. reflexivity.
Qed.

Lemma predict_churn_success_witness :
  predict_churn (Pd := plain_pandas) by_tenure churn_info high_risk
    = Ok (result_record 1 f0_8 f0_2) /\
  exists frame predictions probas row,
    select_columns (Pd := plain_pandas) (DataFrame_of high_risk)
      (feature_names churn_info) = Ok frame /\
    predict by_tenure frame = Ok predictions /\ predictions !! 0%nat = Some 1 /\
    predict_proba by_tenure frame = Ok probas /\ probas !! 0%nat = Some row /\
    row !! 1%nat = Some f0_8 /\ row !! 0%nat = Some f0_2.
Proof.
  assert (E : predict_churn (Pd := plain_pandas) by_tenure churn_info high_risk
              = Ok (result_record 1 f0_8 f0_2)) by (vm_compute; reflexivity).
  split; [exact E|].
  exact (proj1 (predict_churn_success (Pd := plain_pandas)
                  by_tenure churn_info high_risk 1 f0_8 f0_2) E).
Defined.

(** X11. The sample prediction of the training script and the [try]
    block of [predict_churn] run the same steps on the same frame.  When
    the former returns a prediction, a probability and a label, the
    latter returns the record with that prediction, probability and
    label.  When the former raises, so does the latter, and with the very
    same exception but in one case: a first probability row with fewer
    than two entries.  The training script indexes the array once, with
    [[0, 1]], and its [IndexError] names axis 1; the predictor indexes
    the row it took out first, and its [IndexError] names axis 0. *)
Theorem sample_prediction_agrees `{Pd : Pandas}
    (model : Model) (info : model_info) (data : pydict) :
  match test_sample_prediction model (feature_names info) data with
  | Ok (y, p, label) =>
      label = risk_level p /\
      exists q, predict_churn_body model info data = Ok (result_record y p q)
  | Raise e =>
      exists e', predict_churn_body model info data = Raise e' /\
        (e' = e \/
         exists n, (n < 2)%nat /\ e = index_error 1 1 n /\ e' = index_error 1 0 n)
  end /\
  (forall frame predictions y probas row,
     select_columns (DataFrame_of data) (feature_names info) = Ok frame ->
     predict model frame = Ok predictions -> predictions !! 0%nat = Some y ->
     predict_proba model frame = Ok probas -> probas !! 0%nat = Some row ->
     (length row < 2)%nat ->
     test_sample_prediction model (feature_names info) data
       = Raise (index_error 1 1 (length row)) /\
     predict_churn_body model info data = Raise (index_error 1 0 (length row))).
Proof.
  unfold test_sample_prediction, predict_churn_body, rbind, getitem, getitem2,
    result_record.
  split.
  - destruct (select_columns _ _) as [frame|e];
      [|exists e; split; [reflexivity|left; reflexivity]].
    destruct (predict model frame) as [ps|e];
      [|exists e; split; [reflexivity|left; reflexivity]].
    destruct (ps !! 0%nat) as [y|];
      [|eexists; split; [reflexivity|left; reflexivity]].
    destruct (predict_proba model frame) as [pp|e];
      [|exists e; split; [reflexivity|left; reflexivity]].
    destruct (pp !! 0%nat) as [row|];
      [|eexists; split; [reflexivity|left; reflexivity]].
    destruct (row !! 1%nat) as [p|] eqn:E1.
    + destruct (row !! 0%nat) as [q|] eqn:E0.
      * split; [reflexivity|]. exists q. reflexivity.
      * apply lookup_lt_Some in E1. apply lookup_ge_None in E0. lia.
    + eexists. split; [reflexivity|]. right. exists (length row).
      apply lookup_ge_None in E1. split; [lia|]. split; reflexivity.
  - intros frame ps y pp row Hs Hp Hy Hpp Hr Hlen.
    rewrite Hs. cbv beta iota. rewrite Hp. cbv beta iota. rewrite Hy. cbv beta iota.
    rewrite Hpp. cbv beta iota. rewrite Hr. cbv beta iota.
    assert (E1 : row !! 1%nat = None) by (apply lookup_ge_None; lia).
    rewrite E1. split; reflexivity.
Qed.

Lemma sample_prediction_agrees_witness :
  test_sample_prediction (Pd := plain_pandas) single_class
    (feature_names churn_info) high_risk
    = Raise (Exn IndexError "index 1 is out of bounds for axis 1 with size 1") /\
  predict_churn_body (Pd := plain_pandas) single_class churn_info high_risk
    = Raise (Exn IndexError "index 1 is out of bounds for axis 0 with size 1").
Proof.
  exact (proj2 (sample_prediction_agrees (Pd := plain_pandas)
                  single_class churn_info high_risk)
           high_risk [0] 0 [[of_Z 1]] [of_Z 1]
           eq_refl eq_refl eq_refl eq_refl eq_refl (Nat.lt_succ_diag_r 1)).
Defined.

Lemma omap_cons_Some {A B} (f : A -> option B) (x : A) (y : B) (l : list A) :
  f x = Some y -> omap f (x :: l) = y :: omap f l.
Proof. intros H. cbn. rewrite H. reflexivity. Qed.

Lemma dict_get_fresh (k : string) (v : pyval) (d : pydict) (n : string) :
  k ∉ keys d -> n ∈ keys d -> dict_get ((k, v) :: d) n = dict_get d n.
Proof.
  intros Hk Hn. cbn. destruct (decide (k = n)) as [->|]; [contradiction|reflexivity].
Qed.

(** X12. A mapping that already lists exactly the schema's names in
    schema order passes through the column selection unchanged; this is
    the case of every canned profile of the two scripts. *)
Theorem select_columns_identity `{Pd : Pandas} (data : pydict) :
  NoDup (keys data) -> select_columns (DataFrame_of data) (keys data) = Ok data.
Proof.
  intros ND. unfold select_columns, DataFrame_of.
  assert (F : filter (fun n => n ∉ keys data) (keys data) = []).
  { destruct (filter (fun n => n ∉ keys data) (keys data)) as [|m ms] eqn:E;
      [reflexivity|].
    assert (Hm : m ∈ filter (fun n => n ∉ keys data) (keys data))
      by (rewrite E; left).
    apply list_elem_of_filter in Hm as [Hnot Hin]. contradiction. }
  rewrite F. f_equal.
  unfold keys in *. clear F. induction data as [|[k v] d IH]; [reflexivity|].
  apply NoDup_cons in ND as [Hk ND].
  change (((k, v) :: d).*1) with (k :: d.*1).
  rewrite (omap_cons_Some _ k (k, v)).
  2:{ cbn. destruct (decide (k = k)) as [_|Hne]; [reflexivity|contradiction]. }
  f_equal. rewrite <- (IH ND) at 2. apply omap_ext_in. intros n Hn.
  rewrite (dict_get_fresh k v d n Hk Hn). reflexivity.
Qed.

Lemma select_columns_identity_witness :
  Forall (fun c => NoDup (keys c.2) /\ keys c.2 = feature_columns /\
                   select_columns (Pd := plain_pandas) (DataFrame_of c.2)
                     feature_columns = Ok c.2)
    (test_cases ++ test_customers).
Proof.
  apply Forall_forall. intros c Hc.
  assert (K : keys c.2 = feature_columns).
  { revert c Hc. apply Forall_forall. repeat constructor. }
  assert (ND : NoDup (keys c.2)).
  { rewrite K. apply (bool_decide_unpack _). vm_compute. exact I. }
  split; [exact ND|]. split; [exact K|].
  rewrite <- K at 1. exact (select_columns_identity (Pd := plain_pandas) c.2 ND).
Defined.

End PredictExtras.

(** ** More on the artifacts *)

Module ArtifactExtras.
Import F64 Py Disk Examples ArtifactFacts Profiles Directories.

(** X13. Loading never writes and never returns half a pair: the files
    and the write protection are left as they were, and the result is
    either both stored objects, with nothing printed, or [(None, None)]
    with the two-line report, the latter exactly when one of the two files
    is missing. *)
Theorem load_model_all_or_nothing (wc : world Churn.obj) (wh : world House.obj) :
  (let '(r, w') := Churn.load_model wc in
   files w' = files wc /\ readonly w' = readonly wc /\
   ((exists m i, r = Ok (Some m, Some i) /\ stdout w' = stdout wc /\
        files wc !! Churn.model_file = Some m /\ files wc !! Churn.info_file = Some i) \/
    (r = Ok (None, None) /\ length (stdout w') = (length (stdout wc) + 2)%nat /\
       (files wc !! Churn.model_file = None \/ files wc !! Churn.info_file = None)))) /\
  (let '(r, w') := House.load_model wh in
   files w' = files wh /\ readonly w' = readonly wh /\
   ((exists m i, r = Ok (Some m, Some i) /\ stdout w' = stdout wh /\
        files wh !! House.model_file = Some m /\ files wh !! House.info_file = Some i) \/
    (r = Ok (None, None) /\ length (stdout w') = (length (stdout wh) + 2)%nat /\
       (files wh !! House.model_file = None \/ files wh !! House.info_file = None)))).
Proof.
  split.
  - rewrite churn_load_run. cbv zeta beta.
    destruct (files wc !! Churn.model_file) as [m|] eqn:Em.
    + destruct (files wc !! Churn.info_file) as [i|] eqn:Ei.
      * split; [reflexivity|]. split; [reflexivity|]. left. exists m, i. auto.
      * cbn [files readonly stdout]. split; [reflexivity|]. split; [reflexivity|].
        right. rewrite length_app. cbn [length]. auto.
    + cbn [files readonly stdout]. split; [reflexivity|]. split; [reflexivity|].
      right. rewrite length_app. cbn [length]. auto.
  - rewrite house_load_run. cbv zeta beta.
    destruct (files wh !! House.model_file) as [m|] eqn:Em.
    + destruct (files wh !! House.info_file) as [i|] eqn:Ei.
      * split; [reflexivity|]. split; [reflexivity|]. left. exists m, i. auto.
      * cbn [files readonly stdout]. split; [reflexivity|]. split; [reflexivity|].
        right. rewrite length_app. cbn [length]. auto.
    + cbn [files readonly stdout]. split; [reflexivity|]. split; [reflexivity|].
      right. rewrite length_app. cbn [length]. auto.
Qed.

(** X14. Saving touches nothing but its two files: whether it completes
    or fails, every other path holds what it held before and the write
    protection is unchanged. *)
Theorem save_touches_only_its_files (path : string) :
  (path <> Churn.model_file -> path <> Churn.info_file ->
   forall (w : world Churn.obj) model acc imp,
     files (Churn.train_model_save model acc imp w).2 !! path = files w !! path /\
     readonly (Churn.train_model_save model acc imp w).2 = readonly w) /\
  (path <> House.model_file -> path <> House.info_file ->
   forall (w : world House.obj) model r2 mse,
     files (House.train_model_save model r2 mse w).2 !! path = files w !! path /\
     readonly (House.train_model_save model r2 mse w).2 = readonly w).
Proof.
  split; intros Hm Hi w model a b.
  - rewrite churn_save_run. cbv zeta.
    destruct (bool_decide _); [split; reflexivity|].
    destruct (bool_decide _); cbn [snd files readonly].
    + rewrite lookup_insert_ne by congruence. split; reflexivity.
    + rewrite !lookup_insert_ne by congruence. split; reflexivity.
  - rewrite house_save_run. cbv zeta.
    destruct (bool_decide _); [split; reflexivity|].
    destruct (bool_decide _); cbn [snd files readonly].
    + rewrite lookup_insert_ne by congruence. split; reflexivity.
    + rewrite !lookup_insert_ne by congruence. split; reflexivity.
Qed.

Lemma save_touches_only_its_files_witness :
  "notes.txt" <> Churn.model_file /\ "notes.txt" <> Churn.info_file /\
  files (Churn.train_model_save single_class f0_5 [] stale_dir).2 !! "notes.txt"
    = files stale_dir !! "notes.txt".
Proof.
  assert (H1 : "notes.txt" <> Churn.model_file) by discriminate.
  assert (H2 : "notes.txt" <> Churn.info_file) by discriminate.
  split; [exact H1|]. split; [exact H2|].
  exact (proj1 (proj1 (save_touches_only_its_files "notes.txt") H1 H2
                  stale_dir single_class f0_5 [])).
Defined.



End ArtifactExtras.

(** ** The quick-start scripts *)

Module QuickStartFacts.
Import Py QuickStart.

Example thousands_examples :
  thousands 0 = "0" /\ thousands 999 = "999" /\ thousands 1000 = "1,000" /\
  thousands 1234567 = "1,234,567" /\ thousands 100000 = "100,000".
Proof. repeat split; vm_compute; reflexivity. Qed.

Lemma prints_console (lines : list string) (s : sys) :
  prints lines s = Sys (sys_env s) (console s ++ lines) (log s).
Proof.
  unfold prints. revert s. induction lines as [|l lines IH]; intros s.
  - destruct s. cbn. rewrite app_nil_r. reflexivity.
  - cbn [foldl]. rewrite IH. unfold print. cbn [sys_env console log].
    rewrite <- app_assoc. reflexivity.
Qed.

Lemma path_exists_env (path : string) (s1 s2 : sys) :
  sys_env s1 = sys_env s2 -> path_exists path s1 = path_exists path s2.
Proof. unfold path_exists. intros ->. reflexivity. Qed.

Lemma sample_block_first : first_char sample_block = Some (Ascii.ascii_of_nat 10).
Proof. vm_compute. reflexivity. Qed.

Section Scripts.
Context {P : Processes}.

Lemma check_call_spec (c : cmd) (s : sys) :
  let '(r, s') := check_call c s in
  r = (child c (sys_env s)).1 /\
  sys_env s' = (child c (sys_env s)).2 /\
  log s' = log s ++ [(c, returncode r)].
Proof.
  unfold check_call, run_child.
  destruct (child c (sys_env s)) as [r e]. cbn [fst snd].
  destruct (decide (child_stdout r = "")); repeat split.
Qed.

(** A line that does not start with a line break is not the sample
    block. *)
Lemma not_sample_block (s : sys) (line : string) :
  last (console s) = Some line ->
  first_char line <> Some (Ascii.ascii_of_nat 10) ->
  last (console s) <> Some sample_block.
Proof. intros -> Hc [= ->]. apply Hc, sample_block_first. Qed.

(** The two steps of the churn script that start a child: the answer is
    the child's success, the environment is what the child left, and the
    report of a failure is the last thing printed. *)
Lemma install_requirements_spec (s : sys) :
  let '(ok, s') := install_requirements s in
  let r := (child pip_argv (sys_env s)).1 in
  ok = (returncode r =? 0) /\
  sys_env s' = (child pip_argv (sys_env s)).2 /\
  log s' = log s ++ [(pip_argv, returncode r)] /\
  (ok = false ->
   last (console s') =
     Some ("❌ Failed to install packages: "
           +:+ called_process_error_str pip_argv (returncode r))).
Proof.
  unfold install_requirements.
  pose proof (check_call_spec pip_argv (print "📦 Installing required packages..." s)) as H.
  destruct (check_call pip_argv _) as [r s1]. destruct H as (-> & He & Hl).
  cbn [sys_env print log] in *. cbv zeta.
  destruct (returncode (child pip_argv (sys_env s)).1 =? 0).
  - cbn [sys_env print log]. repeat split; try assumption. discriminate.
  - cbn [sys_env print log console]. repeat split; try assumption.
    intros _. apply last_snoc.
Qed.

Lemma train_model_spec (s : sys) :
  let '(ok, s') := train_model s in
  let r := (child train_argv (sys_env s)).1 in
  ok = (returncode r =? 0) /\
  sys_env s' = (child train_argv (sys_env s)).2 /\
  log s' = log s ++ [(train_argv, returncode r)] /\
  (ok = false ->
   last (console s') =
     Some ("❌ Failed to train model: "
           +:+ called_process_error_str train_argv (returncode r))).
Proof.
  unfold train_model.
  pose proof (check_call_spec train_argv (print "🚀 Training customer churn model..." s)) as H.
  destruct (check_call train_argv _) as [r s1]. destruct H as (-> & He & Hl).
  cbn [sys_env print log] in *. cbv zeta.
  destruct (returncode (child train_argv (sys_env s)).1 =? 0).
  - cbn [sys_env print log]. repeat split; try assumption. discriminate.
  - cbn [sys_env print log console]. repeat split; try assumption.
    intros _. apply last_snoc.
Qed.

Lemma verify_model_spec (s : sys) :
  let '(ok, s') := verify_model s in
  ok = path_exists "customer_churn_model.pkl" s /\
  sys_env s' = sys_env s /\ log s' = log s /\
  (ok = false ->
   last (console s') = Some "❌ Model file not found: customer_churn_model.pkl").
Proof.
  unfold verify_model. cbv zeta.
  destruct (path_exists "customer_churn_model.pkl" s).
  - cbn [sys_env print log]. repeat split. discriminate.
  - cbn [sys_env print log console]. repeat split.
    intros _. apply last_snoc.
Qed.

(** [run_command] of the house script. *)
Lemma run_command_spec (command description : string) (s : sys) :
  let '(ok, s') := run_command command description s in
  let r := (child (Shell command) (sys_env s)).1 in
  ok = (returncode r =? 0) /\
  sys_env s' = (child (Shell command) (sys_env s)).2 /\
  log s' = log s ++ [(Shell command, returncode r)].
Proof.
  unfold run_command, run_child. cbn [sys_env print log].
  destruct (child (Shell command) (sys_env s)) as [r e]. cbn [fst snd]. cbv zeta.
  destruct (returncode r =? 0).
  - destruct (decide (child_stdout r = "")); repeat split.
  - repeat split.
Qed.

Lemma check_python_packages_spec (s : sys) :
  let pip := Shell "pip install -r requirements.txt" in
  let '(ok, s') := check_python_packages s in
  (Forall (fun p => p ∈ importable (sys_env s)) required_packages ->
   ok = true /\ sys_env s' = sys_env s /\ log s' = log s) /\
  (~ Forall (fun p => p ∈ importable (sys_env s)) required_packages ->
   ok = (returncode (child pip (sys_env s)).1 =? 0) /\
   sys_env s' = (child pip (sys_env s)).2 /\
   log s' = log s ++ [(pip, returncode (child pip (sys_env s)).1)]).
Proof.
  cbv zeta. unfold check_python_packages. cbv zeta.
  destruct (filter (fun package => package ∉ importable (sys_env s)) required_packages)
    as [|m ms] eqn:F.
  - assert (A : Forall (fun p => p ∈ importable (sys_env s)) required_packages).
    { apply Forall_forall. intros p Hp.
      destruct (decide (p ∈ importable (sys_env s))) as [Hin|Hnin]; [exact Hin|].
      assert (Hf : p ∈ filter (fun package => package ∉ importable (sys_env s))
                         required_packages)
        by (apply list_elem_of_filter; split; assumption).
      rewrite F in Hf. inversion Hf. }
    cbv beta iota. cbn [sys_env log print].
    split; [intros _; repeat split | intros N; contradiction].
  - assert (N : ~ Forall (fun p => p ∈ importable (sys_env s)) required_packages).
    { intros A.
      assert (Hm : m ∈ filter (fun package => package ∉ importable (sys_env s))
                         required_packages) by (rewrite F; left).
      apply list_elem_of_filter in Hm as [Hnin Hin].
      rewrite Forall_forall in A. exact (Hnin (A m Hin)). }
    set (s1 := print "Installing required packages..." _).
    pose proof (run_command_spec "pip install -r requirements.txt"
                  "Installing dependencies" s1) as H.
    destruct (run_command _ _ s1) as [ok s2]. cbv zeta in H.
    destruct H as (-> & He & Hl). cbn [sys_env log print] in *.
    destruct (returncode _ =? 0); cbn [negb]; cbv beta iota;
      (split; [intros A; contradiction | intros _; repeat split; assumption]).
Qed.

Lemma run_command_console (command description : string) (s : sys) :
  exists out, console (run_command command description s).2 = console s ++ out.
Proof.
  unfold run_command, run_child. cbn [sys_env print log console].
  destruct (child (Shell command) (sys_env s)) as [r e]. cbv zeta.
  destruct (returncode r =? 0); [destruct (decide (child_stdout r = ""))|];
    cbn [snd print console]; rewrite <- ?app_assoc; eexists; reflexivity.
Qed.

Lemma check_python_packages_console (s : sys) :
  exists out, console (check_python_packages s).2 = console s ++ out.
Proof.
  unfold check_python_packages. cbv zeta.
  destruct (filter _ required_packages) as [|m ms].
  - cbn [snd print console]. eexists. reflexivity.
  - set (s1 := print "Installing required packages..." _).
    destruct (run_command_console "pip install -r requirements.txt"
                "Installing dependencies" s1) as [out Ho].
    destruct (run_command _ _ s1) as [ok s2]. cbn [snd] in Ho.
    exists (["❌ Missing packages: " +:+ String.concat ", " (m :: ms);
             "Installing required packages..."] ++ out).
    destruct ok; cbn [negb snd]; rewrite Ho; unfold s1; cbn [print console];
      rewrite <- !app_assoc; reflexivity.
Qed.

End Scripts.

End QuickStartFacts.

Module QuickStartTheorems.
Import Py QuickStart QuickStartFacts.

(** X16. The churn quick start runs at most two children, the package
    installation and then the training, and stops at the first failure.
    Its output ends with the sample test data exactly when
    [requirements.txt] is present, both children return 0 and the model
    file exists after the training.  In every other case the last line
    is the report of the step that failed: the request to change
    directory, the failed installation or the failed training with the
    text of the [CalledProcessError], or the missing model file. *)
Theorem churn_main_outcome `{P : Processes} (s : sys) :
  let s' := churn_main s in
  exists new, log s' = log s ++ new /\
    ((last (console s') = Some sample_block /\
      path_exists "requirements.txt" s = true /\
      new = [(pip_argv, 0); (train_argv, 0)] /\
      path_exists "customer_churn_model.pkl" s' = true) \/
     (last (console s') <> Some sample_block /\
      ((path_exists "requirements.txt" s = false /\ new = [] /\
        last (console s') =
          Some "❌ Please run this script from the classification-ml-model directory") \/
       (exists c, c <> 0 /\ new = [(pip_argv, c)] /\
          last (console s') =
            Some ("❌ Failed to install packages: "
                  +:+ called_process_error_str pip_argv c)) \/
       (exists c, c <> 0 /\ new = [(pip_argv, 0); (train_argv, c)] /\
          last (console s') =
            Some ("❌ Failed to train model: "
                  +:+ called_process_error_str train_argv c)) \/
       (new = [(pip_argv, 0); (train_argv, 0)] /\
        path_exists "customer_churn_model.pkl" s' = false /\
        last (console s') =
          Some "❌ Model file not found: customer_churn_model.pkl")))).
Proof.
  cbv zeta. unfold churn_main. rewrite prints_console.
  set (s0 := Sys (sys_env s) _ (log s)).
  rewrite (path_exists_env "requirements.txt" s0 s eq_refl).
  destruct (path_exists "requirements.txt" s) eqn:Ereq; cbn [negb].
  2:{ exists []. rewrite app_nil_r. split; [reflexivity|]. right.
      assert (Hlast : last (console (print
                "❌ Please run this script from the classification-ml-model directory" s0))
              = Some "❌ Please run this script from the classification-ml-model directory")
        by apply last_snoc.
      split.
      - eapply not_sample_block; [exact Hlast|]. cbn. discriminate.
      - left. split; [reflexivity|]. split; [reflexivity|exact Hlast]. }
  pose proof (install_requirements_spec s0) as H1.
  destruct (install_requirements s0) as [ok1 s1]. cbv zeta in H1.
  destruct H1 as (-> & He1 & Hl1 & Hf1).
  destruct (Z.eqb_spec (returncode (child pip_argv (sys_env s0)).1) 0) as [Z1|Z1];
    cbn [negb].
  2:{ eexists. split; [exact Hl1|]. right. split.
      - eapply not_sample_block; [exact (Hf1 eq_refl)|]. cbn. discriminate.
      - right. left. eexists. split; [exact Z1|]. split; [reflexivity|].
        exact (Hf1 eq_refl). }
  rewrite Z1 in Hl1.
  pose proof (train_model_spec s1) as H2.
  destruct (train_model s1) as [ok2 s2]. cbv zeta in H2.
  destruct H2 as (-> & He2 & Hl2 & Hf2).
  destruct (Z.eqb_spec (returncode (child train_argv (sys_env s1)).1) 0) as [Z2|Z2];
    cbn [negb].
  2:{ eexists. split; [rewrite Hl2, Hl1, <- app_assoc; reflexivity|]. right. split.
      - eapply not_sample_block; [exact (Hf2 eq_refl)|]. cbn. discriminate.
      - right. right. left. eexists. split; [exact Z2|]. split; [reflexivity|].
        exact (Hf2 eq_refl). }
  rewrite Z2 in Hl2.
  pose proof (verify_model_spec s2) as H3.
  destruct (verify_model s2) as [ok3 s3]. destruct H3 as (-> & He3 & Hl3 & Hf3).
  destruct (path_exists "customer_churn_model.pkl" s2) eqn:Em; cbn [negb].
  - rewrite prints_console. cbn [log console].
    exists [(pip_argv, 0); (train_argv, 0)].
    split; [rewrite Hl3, Hl2, Hl1, <- app_assoc; reflexivity|]. left.
    split; [|split; [reflexivity|split; [reflexivity|]]].
    + unfold churn_success_lines.
      change [?a; ?b; ?c; ?d; ?e; ?f; ?g; ?h; ?i; ?j; sample_block]
        with ([a; b; c; d; e; f; g; h; i; j] ++ [sample_block]).
      rewrite app_assoc. apply last_snoc.
    + rewrite (path_exists_env _ _ s2); [exact Em | cbn [sys_env]; exact He3].
  - exists [(pip_argv, 0); (train_argv, 0)].
    split; [rewrite Hl3, Hl2, Hl1, <- app_assoc; reflexivity|]. right. split.
    + eapply not_sample_block; [exact (Hf3 eq_refl)|]. cbn. discriminate.
    + right. right. right. split; [reflexivity|]. split.
      * rewrite (path_exists_env _ _ s2); [exact Em | exact He3].
      * exact (Hf3 eq_refl).
Qed.

(** X17. The house quick start checks the four packages once: when all
    are importable it starts no child; otherwise it runs the package
    installation once and answers with that child's success, without
    looking at the packages again. *)
Theorem check_python_packages_outcome `{P : Processes} (s : sys) :
  let pip := Shell "pip install -r requirements.txt" in
  let '(ok, s') := check_python_packages s in
  (Forall (fun p => p ∈ importable (sys_env s)) required_packages ->
   ok = true /\ sys_env s' = sys_env s /\ log s' = log s) /\
  (~ Forall (fun p => p ∈ importable (sys_env s)) required_packages ->
   ok = (returncode (child pip (sys_env s)).1 =? 0) /\
   sys_env s' = (child pip (sys_env s)).2 /\
   log s' = log s ++ [(pip, returncode (child pip (sys_env s)).1)]).
Proof. apply check_python_packages_spec. Qed.

Lemma check_python_packages_outcome_witness :
  ~ Forall (fun p => p ∈ importable (sys_env fresh_checkout)) required_packages /\
  (check_python_packages (P := toy_os) fresh_checkout).1 = true /\
  log (check_python_packages (P := toy_os) fresh_checkout).2 =
    [(Shell "pip install -r requirements.txt", 0)].
Proof.
  assert (N : ~ Forall (fun p => p ∈ importable (sys_env fresh_checkout))
                  required_packages).
  { intros A. apply Forall_cons in A as [A _]. cbn in A. apply not_elem_of_empty in A.
    exact A. }
  split; [exact N|].
  pose proof (check_python_packages_outcome (P := toy_os) fresh_checkout) as H.
  cbv zeta in H.
  destruct (check_python_packages (P := toy_os) fresh_checkout) as [ok s'].
  destruct (proj2 H N) as (Hok & _ & Hlog). cbn [fst snd].
  split; [rewrite Hok | rewrite Hlog]; reflexivity.
Defined.

(** X18. The house quick start exits with status 1 exactly when
    [train_model.py] is missing, the package installation fails or the
    training fails, and then never starts the test.  Otherwise it returns
    normally and ends with the completion banner whatever the test
    command returned; the model file is never looked for. *)
Theorem house_main_ending `{P : Processes} (s : sys) :
  let pip := Shell "pip install -r requirements.txt" in
  let train := Shell "python train_model.py" in
  let test := Shell "python test_model.py" in
  let '(e, s') := house_main s in
  exists new, log s' = log s ++ new /\
    match e with
    | Returned =>
        path_exists "train_model.py" s = true /\
        (exists pre code,
           new = pre ++ [(train, 0); (test, code)] /\
           (pre = [] \/ pre = [(pip, 0)])) /\
        (exists printed,
           console s' = console s ++ house_intro_lines ++ printed ++ house_final_lines)
    | Exited status =>
        status = 1 /\
        ((path_exists "train_model.py" s = false /\ new = []) \/
         (exists code, code <> 0 /\ new = [(pip, code)]) \/
         (exists pre code, code <> 0 /\ new = pre ++ [(train, code)] /\
                           (pre = [] \/ pre = [(pip, 0)])))
    end.
Proof.
  cbv zeta. unfold house_main. rewrite prints_console.
  set (s0 := Sys (sys_env s) _ (log s)).
  rewrite (path_exists_env "train_model.py" s0 s eq_refl).
  destruct (path_exists "train_model.py" s) eqn:Et; cbn [negb].
  2:{ exists []. rewrite app_nil_r. split; [reflexivity|].
      split; [reflexivity|]. left. split; reflexivity. }
  pose proof (check_python_packages_spec s0) as H1. cbv zeta in H1.
  pose proof (check_python_packages_console s0) as C1.
  destruct (check_python_packages s0) as [ok1 s1]. cbn [snd] in C1.
  assert (Hpre : exists pre, log s1 = log s ++ pre /\
                   ((pre = [] /\ ok1 = true) \/
                    (exists code, pre = [(Shell "pip install -r requirements.txt", code)]
                                  /\ ok1 = (code =? 0)))).
  { destruct (decide (Forall (fun p => p ∈ importable (sys_env s0)) required_packages))
      as [A|N].
    - destruct (proj1 H1 A) as (-> & _ & Hl). exists []. rewrite app_nil_r.
      split; [exact Hl|]. left. split; reflexivity.
    - destruct (proj2 H1 N) as (-> & _ & Hl). eexists. split; [exact Hl|].
      right. eexists. split; reflexivity. }
  clear H1. destruct Hpre as (pre & Hl1 & Hpre).
  destruct ok1; cbn [negb].
  2:{ exists pre. cbn [log print]. split; [exact Hl1|]. split; [reflexivity|].
      right. left. destruct Hpre as [[_ [=]]|(code & -> & Hc)].
      exists code. split; [|reflexivity]. intros ->. discriminate. }
  assert (Hpre' : pre = [] \/ pre = [(Shell "pip install -r requirements.txt", 0)]).
  { destruct Hpre as [[-> _]|(code & -> & Hc)]; [left; reflexivity|right].
    symmetry in Hc. apply Z.eqb_eq in Hc. subst code. reflexivity. }
  pose proof (run_command_spec "python train_model.py" "Training model" s1) as H2.
  pose proof (run_command_console "python train_model.py" "Training model" s1) as C2.
  destruct (run_command _ _ s1) as [ok2 s2]. cbv zeta in H2. cbn [snd] in C2.
  destruct H2 as (-> & _ & Hl2).
  destruct (Z.eqb_spec (returncode (child (Shell "python train_model.py") (sys_env s1)).1) 0)
    as [Z2|Z2]; cbn [negb].
  2:{ eexists. split; [rewrite Hl2, Hl1, <- app_assoc; reflexivity|].
      split; [reflexivity|]. right. right. eexists _, _.
      split; [exact Z2|]. split; [reflexivity|exact Hpre']. }
  rewrite Z2 in Hl2.
  pose proof (run_command_spec "python test_model.py" "Testing model" s2) as H3.
  pose proof (run_command_console "python test_model.py" "Testing model" s2) as C3.
  destruct (run_command _ _ s2) as [ok3 s3]. cbv zeta in H3. cbn [snd] in C3.
  destruct H3 as (_ & _ & Hl3).
  rewrite prints_console.
  eexists. split.
  { destruct (negb ok3); cbn [log print];
      rewrite Hl3, Hl2, Hl1, <- !app_assoc; reflexivity. }
  split; [reflexivity|]. split.
  - eexists _, _. split; [reflexivity|exact Hpre'].
  - destruct C1 as [o1 C1], C2 as [o2 C2], C3 as [o3 C3].
    cbn [console] in *.
    destruct (negb ok3); cbn [console print].
    + exists (o1 ++ o2 ++ o3 ++
              ["⚠️ Testing failed, but model was created successfully"]).
      rewrite C3, C2, C1. unfold s0. cbn [console].
      rewrite <- !app_assoc. reflexivity.
    + exists (o1 ++ o2 ++ o3).
      rewrite C3, C2, C1. unfold s0. cbn [console].
      rewrite <- !app_assoc. reflexivity.
Qed.

(** Both scripts on a fresh checkout, with an operating system whose
    training command writes the model file and whose test command fails. *)
Example quick_start_runs :
  last (console (churn_main (P := toy_os) fresh_checkout)) = Some sample_block /\
  log (churn_main (P := toy_os) fresh_checkout) =
    [ (ArgV ["/usr/bin/python3"; "-m"; "pip"; "install"; "-r"; "requirements.txt"], 0);
      (ArgV ["/usr/bin/python3"; "train_churn_model.py"], 0) ] /\
  (house_main (P := toy_os) fresh_checkout).1 = Returned /\
  log (house_main (P := toy_os) fresh_checkout).2 =
    [ (Shell "pip install -r requirements.txt", 0);
      (Shell "python train_model.py", 0);
      (Shell "python test_model.py", 1) ] /\
  last (console (house_main (P := toy_os) fresh_checkout).2) = Some "}".
Proof. repeat split; vm_compute; reflexivity. Qed.

End QuickStartTheorems.
